(** * A model of the farming web application (app.py, config.py, models.py)

    The route handlers of [app.py] are embedded as functions over an explicit
    store (the two tables of [models.py]), an explicit login session and an
    explicit per-request environment (server clock, salt, outcome of the
    store write, outcomes of the imagery and weather provider calls).
    Python values that cross the HTTP boundary are modelled by a JSON type;
    Python exceptions by a small error monad. *)

From stdpp Require Import base tactics option list strings sorting pretty.
From Stdlib Require Import ZArith Lia Ascii.
From Stdlib Require QArith_base.

Local Open Scope string_scope.
Local Open Scope list_scope.
Local Open Scope Z_scope.

(** ** The fragment of Python the handlers rely on *)

Module Py.

(** Exceptions that the modelled code can meet.  [HTTPException] is
    werkzeug's, raised by [request.get_json(force=True)] on a body that is
    not JSON; [UpstreamError] stands for whatever the Earth Engine client
    or [requests] raises (EEException, ConnectionError, Timeout, ...). *)
Inductive exn :=
| ValueError (msg : string)
| TypeError (msg : string)
| AttributeError (msg : string)
| OverflowError (msg : string)
| HTTPException (code : Z) (msg : string)
| KeyError (msg : string)
| UpstreamError (msg : string)
| DatabaseError (msg : string).

(** [str(e)] *)
Definition exn_str (e : exn) : string :=
  match e with
  | ValueError m | TypeError m | AttributeError m | OverflowError m | KeyError m
  | UpstreamError m | DatabaseError m => m
  | HTTPException c m => pretty c +:+ " " +:+ m
  end.

Inductive result (A : Type) :=
| Ok (a : A)
| Raise (e : exn).
Global Arguments Ok {A} a.
Global Arguments Raise {A} e.

Definition bind {A B} (m : result A) (k : A → result B) : result B :=
  match m with
  | Ok a => k a
  | Raise e => Raise e
  end.

(** [try: body  except Exception: handler] *)
Definition try_except {A} (body : result A) (handler : exn → result A)
  : result A :=
  match body with
  | Ok a => Ok a
  | Raise e => handler e
  end.

Global Instance result_ret : MRet result := λ A a, Ok a.
Global Instance result_bind : MBind result := λ A B k m, bind m k.

Definition raises {A} (m : result A) : Prop := ∃ e, m = Raise e.

(** Characters are code points below 256; [str.isspace] on that range. *)
Definition isspace (c : ascii) : bool :=
  let n := Z.of_N (N_of_ascii c) in
  ((9 <=? n) && (n <=? 13)) || ((28 <=? n) && (n <=? 32))
  || (n =? 133) || (n =? 160).

Fixpoint lstrip (s : string) : string :=
  match s with
  | String c s' => if isspace c then lstrip s' else s
  | EmptyString => EmptyString
  end.

(** [rstrip] keeps a character when it is not a space or when something
    is kept after it. *)
Fixpoint rstrip (s : string) : string :=
  match s with
  | String c s' =>
      match rstrip s' with
      | EmptyString => if isspace c then EmptyString else String c EmptyString
      | r => String c r
      end
  | EmptyString => EmptyString
  end.

(** [s.strip()] *)
Definition strip (s : string) : string := rstrip (lstrip s).

Definition is_digit (c : ascii) : bool :=
  let n := Z.of_N (N_of_ascii c) in (48 <=? n) && (n <=? 57).

Definition digit_val (c : ascii) : Z := Z.of_N (N_of_ascii c) - 48.

(** Digits of an integer literal as [int()] reads them: a digit may be
    followed by a single underscore, which must be followed by a digit.
    [seen] says that the previous character was a digit. *)
Fixpoint int_digits (s : string) (acc : Z) (seen : bool) : option Z :=
  match s with
  | EmptyString => if seen then Some acc else None
  | String c s' =>
      if is_digit c then int_digits s' (10 * acc + digit_val c) true
      else if (Ascii.eqb c "_"%char) && seen then int_digits s' acc false
      else None
  end.

(** The interpreter setting that [int()] consults,
    [sys.get_int_max_str_digits()]: 0 switches the limit off, any other
    value is at least 640; CPython's default is 4300. *)
Class runtime := {
  int_max_str_digits : nat;
  int_max_str_digits_ok :
    int_max_str_digits = 0%nat ∨ (640 ≤ int_max_str_digits)%nat
}.

(** The whitespace that [int()] skips around a literal: the C locale's
    spaces, and the non-ASCII Unicode spaces, which it first turns into
    blanks.  The separators 28-31, which [str.strip] removes, are not
    among them. *)
Definition int_isspace (c : ascii) : bool :=
  let n := Z.of_N (N_of_ascii c) in
  ((9 <=? n) && (n <=? 13)) || (n =? 32) || (n =? 133) || (n =? 160).

Fixpoint int_lskip (s : string) : string :=
  match s with
  | String c s' => if int_isspace c then int_lskip s' else s
  | EmptyString => EmptyString
  end.

Fixpoint int_rskip (s : string) : string :=
  match s with
  | String c s' =>
      match int_rskip s' with
      | EmptyString =>
          if int_isspace c then EmptyString else String c EmptyString
      | r => String c r
      end
  | EmptyString => EmptyString
  end.

(** The number of digits of a literal, underscores and sign apart. *)
Fixpoint digit_count (s : string) : nat :=
  match s with
  | EmptyString => 0
  | String c s' => ((if is_digit c then 1 else 0) + digit_count s')%nat
  end.

(** [int(s)] for a string [s]: surrounding whitespace is skipped, one sign
    is allowed, and a literal with more digits than the limit is refused;
    every failure is a [ValueError]. *)
Definition int `{runtime} (s : string) : result Z :=
  let body := int_rskip (int_lskip s) in
  let parsed :=
    match body with
    | String "+"%char r => int_digits r 0 false
    | String "-"%char r => Z.opp <$> int_digits r 0 false
    | _ => int_digits body 0 false
    end in
  match parsed with
  | Some n =>
      if Nat.ltb 0 int_max_str_digits
         && Nat.ltb int_max_str_digits (digit_count body)
      then Raise (ValueError "Exceeds the limit for integer string conversion")
      else Ok n
  | None => Raise (ValueError ("invalid literal for int() with base 10: " +:+ s))
  end.

(** [str(n)] for an integer. *)
Definition str_int (n : Z) : string := pretty n.

End Py.

(** ** Configuration (config.py) and the constants of app.py *)

Module Config.
Definition FLASK_SECRET : string := "CHANGE_THIS_TO_A_LONG_RANDOM_STRING".
Definition OPENWEATHER_API_KEY : string := "YOUR OPENWATHER_API_KEY".
Definition GOOGLE_MAPS_API_KEY : string := "ENTER YOUR GOOGLE_MAPS_API_KEY".
Definition IOT_API_KEY : string := "SAME KEY FOR BOTH FLASK AND IOT ".
End Config.

Definition PROJECT_ID : string := "farmingaiproject".
Definition ADMIN_USERNAME : string := "admin".
Definition ADMIN_PASSWORD : string := "admin123".
(** [getattr(config, "IOT_API_KEY", ...)]: the attribute exists. *)
Definition IOT_API_KEY : string := Config.IOT_API_KEY.

(** ** Interfaces of the libraries the handlers call *)

(** werkzeug.security: [generate_password_hash] draws a salt, so the salt is
    an explicit argument; a generated hash verifies against its password. *)
Class PasswordHash := {
  generate_password_hash : string → string → string;
  check_password_hash : string → string → bool;
  check_generate : ∀ salt pw,
    check_password_hash (generate_password_hash salt pw) pw = true
}.

(** Python floats: the carrier and the conversions [float(n)] for an
    integer (OverflowError when too large) and [float(s)] for a string
    (ValueError when it is not a literal). *)
Class PyFloat := {
  float : Type;
  float_eq_dec :: EqDecision float;
  fzero : float;
  float_is_zero : float → bool;
  float_is_nan : float → bool;
  float_of_int : Z → Py.result float;
  float_of_str : string → Py.result float;
  (** the literals of [api_point_ndvi] *)
  default_lat : float;
  default_lon : float
}.

(** Naive datetimes as SQLite's CURRENT_TIMESTAMP yields them (whole
    seconds). *)
Record datetime := {
  year : Z; month : Z; day : Z; hour : Z; minute : Z; second : Z
}.

Global Instance datetime_eq_dec : EqDecision datetime.
Proof. solve_decision. Defined.

(** Chronological rank, the order in which the store sorts timestamps. *)
Definition dt_key (d : datetime) : Z :=
  ((((year d * 13 + month d) * 32 + day d) * 24 + hour d) * 60 + minute d) * 60
  + second d.

Definition pad2 (n : Z) : string :=
  if n <? 10 then "0" +:+ pretty n else pretty n.
Definition pad4 (n : Z) : string :=
  if n <? 10 then "000" +:+ pretty n
  else if n <? 100 then "00" +:+ pretty n
  else if n <? 1000 then "0" +:+ pretty n
  else pretty n.

(** [d.isoformat()] for a datetime without microseconds. *)
Definition isoformat (d : datetime) : string :=
  pad4 (year d) +:+ "-" +:+ pad2 (month d) +:+ "-" +:+ pad2 (day d) +:+ "T"
  +:+ pad2 (hour d) +:+ ":" +:+ pad2 (minute d) +:+ ":" +:+ pad2 (second d).

(** ** Values, tables and sessions *)

Section Model.
Context {interp : Py.runtime} {hashing : PasswordHash} {floats : PyFloat}.

(** What [json.loads] produces; Python's [None] is [JNull].  The fields
    of an object are the items of the resulting dict, one per key. *)
#[warnings="-register-all"]
Inductive json :=
| JNull
| JBool (b : bool)
| JInt (n : Z)
| JFloat (x : float)
| JStr (s : string)
| JArr (items : list json)
| JObj (fields : list (string * json)).

(** Truth value, as tested by [not data] and by [x or 0.0]. *)
Definition truthy (v : json) : bool :=
  match v with
  | JNull => false
  | JBool b => b
  | JInt n => negb (n =? 0)
  | JFloat x => negb (float_is_zero x)
  | JStr s => negb (String.eqb s "")
  | JArr items => match items with [] => false | _ => true end
  | JObj fields => match fields with [] => false | _ => true end
  end.

(** [a or b] *)
Definition py_or (a b : json) : json := if truthy a then a else b.

Fixpoint assoc (k : string) (fields : list (string * json)) : option json :=
  match fields with
  | [] => None
  | (k', v) :: rest => if String.eqb k' k then Some v else assoc k rest
  end.

(** [d.get(k, dflt)]; only dicts have the method. *)
Definition py_get_default (d : json) (k : string) (dflt : json)
  : Py.result json :=
  match d with
  | JObj fields => Py.Ok (default dflt (assoc k fields))
  | _ => Py.Raise (Py.AttributeError "object has no attribute 'get'")
  end.

(** [d.get(k)] *)
Definition py_get (d : json) (k : string) : Py.result json :=
  py_get_default d k JNull.

(** [d[k]] for a string key. *)
Definition py_getitem (d : json) (k : string) : Py.result json :=
  match d with
  | JObj fields =>
      match assoc k fields with
      | Some v => Py.Ok v
      | None => Py.Raise (Py.KeyError k)
      end
  | _ => Py.Raise (Py.TypeError "indices must be integers or not subscriptable")
  end.

Fixpoint chars (s : string) : list json :=
  match s with
  | EmptyString => []
  | String c s' => JStr (String c EmptyString) :: chars s'
  end.

(** Iteration, as in [for x in v]. *)
Definition py_iter (v : json) : Py.result (list json) :=
  match v with
  | JArr items => Py.Ok items
  | JStr s => Py.Ok (chars s)
  | JObj fields => Py.Ok ((λ kv, JStr kv.1) <$> fields)
  | _ => Py.Raise (Py.TypeError "object is not iterable")
  end.

(** [a, b = v] *)
Definition py_unpack2 (v : json) : Py.result (json * json) :=
  items ← py_iter v;
  match items with
  | [a; b] => mret (a, b)
  | _ => Py.Raise (Py.ValueError "wrong number of values to unpack")
  end.

(** [float(v)] *)
Definition py_float (v : json) : Py.result float :=
  match v with
  | JFloat x => Py.Ok x
  | JInt n => float_of_int n
  | JBool b => float_of_int (if b then 1 else 0)
  | JStr s => float_of_str s
  | JNull | JArr _ | JObj _ =>
      Py.Raise (Py.TypeError "float() argument must be a string or a real number")
  end.

(** [v != s] for a string [s] *)
Definition py_ne_str (v : json) (s : string) : bool :=
  match v with
  | JStr s' => negb (String.eqb s' s)
  | _ => true
  end.

(** *** models.py *)

Record User := {
  user_id : Z;
  username : string;
  password : string;
  role : string
}.

(** The Float columns are nullable: [None] is SQL NULL. *)
Record IoTReading := {
  reading_id : Z;
  timestamp : datetime;
  cap_soil_pct : option float;
  res_soil_pct : option float;
  rain_pct : option float;
  water_level_pct : option float;
  temperature_c : option float;
  humidity_pct : option float
}.

(** What SQLite keeps of a Python float bound to a REAL column: NULL in
    place of a NaN, 0.0 for a zero of either sign (a real equal to an
    integer is written as that integer), the value itself otherwise. *)
Definition sql_real (x : float) : option float :=
  if float_is_nan x then None
  else if float_is_zero x then Some fzero
  else Some x.

(** A column value read back and passed to [jsonify]: NULL is [None]. *)
Definition json_of_real (v : option float) : json :=
  match v with
  | Some x => JFloat x
  | None => JNull
  end.

Record store := {
  users : list User;
  readings : list IoTReading
}.

(** The integer primary key the store gives a new row: one more than the
    largest in the table (rows are never deleted). *)
Definition next_id (ids : list Z) : Z := 1 + foldr Z.max 0 ids.

(** [User.query.filter_by(username=name).first()] *)
Definition filter_by_username (tbl : list User) (name : string)
  : option User :=
  head (filter (λ u, username u = name) tbl).

(** [User.query.get(n)] *)
Definition query_get (tbl : list User) (n : Z) : option User :=
  head (filter (λ u, user_id u = n) tbl).

(** [ORDER BY timestamp DESC] *)
Definition newer_first (a b : IoTReading) : Prop :=
  dt_key (timestamp b) ≤ dt_key (timestamp a).

Global Instance newer_first_dec a b : Decision (newer_first a b).
Proof. unfold newer_first. apply _. Defined.

(** [IoTReading.query.order_by(IoTReading.timestamp.desc()).first()] *)
Definition latest_reading (tbl : list IoTReading) : option IoTReading :=
  head (merge_sort newer_first tbl).

(** *** Session principals *)

(** What [current_user] can be: a row of the User table, the object of
    class [FakeAdmin] built by [admin_login], or flask_login's anonymous
    user. *)
Inductive principal :=
| DbUser (u : User)
| FakeAdmin
| AnonymousUser.

(** [p.get_id()]: [str(self.id)] for a row (UserMixin), ["admin"] for
    [FakeAdmin]. *)
Definition get_id (p : principal) : option string :=
  match p with
  | DbUser u => Some (Py.str_int (user_id u))
  | FakeAdmin => Some "admin"
  | AnonymousUser => None
  end.

(** [getattr(p, 'role', None)] *)
Definition getattr_role (p : principal) : option string :=
  match p with
  | DbUser u => Some (role u)
  | FakeAdmin => Some "admin"
  | AnonymousUser => None
  end.

(** [p.username] *)
Definition attr_username (p : principal) : Py.result string :=
  match p with
  | DbUser u => Py.Ok (username u)
  | FakeAdmin => Py.Ok ADMIN_USERNAME
  | AnonymousUser =>
      Py.Raise (Py.AttributeError "'AnonymousUserMixin' object has no attribute 'username'")
  end.

(** [p.is_active] *)
Definition is_active (p : principal) : bool :=
  match p with
  | DbUser _ | FakeAdmin => true
  | AnonymousUser => false
  end.

(** [p.is_authenticated]: [FakeAdmin] defines [id], [username], [role],
    [is_active] and [get_id] only. *)
Definition is_authenticated (p : principal) : Py.result bool :=
  match p with
  | DbUser _ => Py.Ok true
  | AnonymousUser => Py.Ok false
  | FakeAdmin =>
      Py.Raise (Py.AttributeError "'FakeAdmin' object has no attribute 'is_authenticated'")
  end.

(** The server state: the store, the [_user_id] entry of the login
    session, and the two module-level values fixed at start-up: [folium]
    (imported or [None]) and [ee_ok]. *)
Record world := {
  db : store;
  session_user_id : option string;
  folium : bool;
  ee_ok : bool
}.

Definition set_session (w : world) (uid : option string) : world :=
  {| db := db w; session_user_id := uid;
     folium := folium w; ee_ok := ee_ok w |}.

Definition set_users (w : world) (tbl : list User) : world :=
  {| db := {| users := tbl; readings := readings (db w) |};
     session_user_id := session_user_id w;
     folium := folium w; ee_ok := ee_ok w |}.

Definition set_readings (w : world) (tbl : list IoTReading) : world :=
  {| db := {| users := users (db w); readings := tbl |};
     session_user_id := session_user_id w;
     folium := folium w; ee_ok := ee_ok w |}.

(** *** Earth Engine expressions

    The client builds expressions lazily; only [getMapId] and [getInfo]
    talk to the provider.  The constructors follow the calls of app.py. *)

Inductive geometry :=
| GeomPoint (lon lat : float)
| GeomPolygon (rings : list (list (json * json))).

Inductive ee_collection :=
| ImageCollection (name : string)
| FilterBounds (c : ee_collection) (g : geometry)
| FilterDate (c : ee_collection) (lookback_days : Z) (today : datetime)
| SortBy (c : ee_collection) (property : string).

Inductive ee_image :=
| First (c : ee_collection)
| NormalizedDifference (img : ee_image) (bands : list string) (name : string).

(** The two visualisation dicts: bands B4, B3, B2 in 0..3000, and the
    red/yellow/green palette in -1..1. *)
Inductive vis := TrueColorVis | NdviVis.

(** What the start-up of the process meets: whether [ee] and [folium]
    import, and how [ee.Initialize] and then [ee.Authenticate] followed
    by [ee.Initialize] end. *)
Record startup := {
  libs_imported : bool;
  initialize : Py.result unit;
  authenticate_initialize : Py.result unit
}.

(** What one request meets outside the process. *)
Record env := {
  now : datetime;
  salt : string;
  (** [db.session.commit()] of [api_iot_upload] raises with this message *)
  commit_error : option string;
  (** [img.getMapId(vis)['tile_fetcher'].url_format] *)
  getMapId : ee_image → vis → Py.result string;
  (** [ndvi.reduceRegion(mean, point, 10).get('NDVI').getInfo()] *)
  reduce_mean : ee_image → geometry → Py.result json;
  (** [ndvi.reduceRegion(minMax+mean+stdDev, poly, 10).getInfo()] *)
  reduce_stats : ee_image → geometry → Py.result json;
  (** [collection.map(compute_ndvi).getInfo()] *)
  series_getInfo : ee_collection → geometry → Py.result json;
  (** [folium.Map(...)] with an optional tile layer, rendered *)
  folium_map : float → float → option (string * string) → string;
  (** [requests.get(url, timeout=8).json()] for the two weather urls *)
  weather_json : float → float → Py.result json;
  forecast_json : float → float → Py.result json
}.

End Model.

(** ** app.py *)

Section App.
Context {interp : Py.runtime} {hashing : PasswordHash} {floats : PyFloat}.

(** [load_user(uid)] *)
Definition load_user (tbl : list User) (uid : string)
  : Py.result (option User) :=
  Py.try_except
    (n ← Py.int uid; mret (query_get tbl n))
    (λ _, mret None).

(** [init_ee()] *)
Definition init_ee (s : startup) : bool :=
  if negb (libs_imported s) then false
  else
    match initialize s with
    | Py.Ok _ => true
    | Py.Raise _ =>
        match authenticate_initialize s with
        | Py.Ok _ => true
        | Py.Raise _ => false
        end
    end.

(** The state after [db.create_all()] on a fresh database file. *)
Definition initial_world (s : startup) : world :=
  {| db := {| users := []; readings := [] |};
     session_user_id := None;
     folium := libs_imported s;
     ee_ok := init_ee s |}.

(** [get_latest_s2_image(geometry)] *)
Definition get_latest_s2_image (w : world) (e : env) (g : geometry)
  : option ee_image :=
  if negb (ee_ok w) then None
  else
    let collection :=
      SortBy (FilterDate (FilterBounds (ImageCollection "COPERNICUS/S2_SR") g)
                         60 (now e))
             "CLOUDY_PIXEL_PERCENTAGE" in
    Some (First collection).

(** [get_true_color_map(lat, lon)] *)
Definition get_true_color_map (w : world) (e : env) (lat lon : float)
  : Py.result string :=
  if negb (ee_ok w && folium w) then
    mret "<p>True color map unavailable (EE/folium not installed).</p>"
  else
    let point := GeomPoint lon lat in
    match get_latest_s2_image w e point with
    | None => mret (folium_map e lat lon None)
    | Some img =>
        match getMapId e img TrueColorVis with
        | Py.Raise _ => mret "<p>True color map error.</p>"
        | Py.Ok tile_url =>
            mret (folium_map e lat lon (Some (tile_url, "Sentinel-2 True Color")))
        end
    end.

(** [get_point_ndvi(lat, lon)]: the pair [(ndvi_value, html)] *)
Definition get_point_ndvi (w : world) (e : env) (lat lon : float)
  : Py.result (json * string) :=
  if negb (ee_ok w && folium w) then
    mret (JNull, "<p>NDVI unavailable (EE/folium missing).</p>")
  else
    let point := GeomPoint lon lat in
    match get_latest_s2_image w e point with
    | None => mret (JNull, "<p>No Sentinel-2 image.</p>")
    | Some img =>
        let ndvi := NormalizedDifference img ["B8"; "B4"] "NDVI" in
        match getMapId e ndvi NdviVis with
        | Py.Raise _ => mret (JNull, "<p>NDVI map error.</p>")
        | Py.Ok tile_url =>
            let html := folium_map e lat lon (Some (tile_url, "NDVI")) in
            ndvi_value ← Py.try_except (reduce_mean e ndvi point)
                                       (λ _, mret JNull);
            mret (ndvi_value, html)
        end
    end.

(** [get_polygon_ndvi_stats(coords)] *)
Definition get_polygon_ndvi_stats (w : world) (e : env) (coords : json)
  : Py.result json :=
  if negb (ee_ok w) then mret JNull
  else
    pairs ← py_iter coords;
    ee_coords ← mapM (λ c, p ← py_unpack2 c; mret (p.2, p.1)) pairs;
    let poly := GeomPolygon [ee_coords] in
    match get_latest_s2_image w e poly with
    | None => mret JNull
    | Some img =>
        let ndvi := NormalizedDifference img ["B8"; "B4"] "NDVI" in
        stats ← reduce_stats e ndvi poly;
        vmin ← py_get stats "NDVI_min";
        vmax ← py_get stats "NDVI_max";
        vmean ← py_get stats "NDVI_mean";
        vstd ← py_get stats "NDVI_stdDev";
        mret (JObj [("NDVI_min", vmin); ("NDVI_max", vmax);
                    ("NDVI_mean", vmean); ("NDVI_stdDev", vstd)])
    end.

(** [get_ndvi_timeseries(lat, lon)]: the pair [(dates, values)] *)
Definition get_ndvi_timeseries (w : world) (e : env) (lat lon : float)
  : Py.result (json * json) :=
  if negb (ee_ok w) then mret (JArr [], JArr [])
  else
    let point := GeomPoint lon lat in
    let collection :=
      SortBy (FilterDate (FilterBounds (ImageCollection "COPERNICUS/S2_SR") point)
                         180 (now e))
             "system:time_start" in
    info ← series_getInfo e collection point;
    features ← py_get_default info "features" (JArr []);
    fs ← py_iter features;
    dates ← mapM (λ f, p ← py_getitem f "properties"; py_getitem p "date") fs;
    values ← mapM (λ f, p ← py_getitem f "properties"; py_getitem p "NDVI") fs;
    mret (JArr dates, JArr values).

(** [fetch_weather(lat, lon)]: the pair [(w, f)] *)
Definition fetch_weather (e : env) (lat lon : float) : Py.result (json * json) :=
  let key := Config.OPENWEATHER_API_KEY in
  if String.eqb key "" then mret (JNull, JNull)
  else
    Py.try_except
      (w ← weather_json e lat lon;
       f ← forecast_json e lat lon;
       mret (w, f))
      (λ _, mret (JNull, JNull)).

(** *** Requests, responses and the login session *)

Inductive method := GET | POST.

(** [request.form.get(k, dflt)] *)
Fixpoint form_get (form : list (string * string)) (k dflt : string) : string :=
  match form with
  | [] => dflt
  | (k', v) :: rest => if String.eqb k' k then v else form_get rest k dflt
  end.

Inductive template_arg :=
| ArgStr (s : string)
| ArgUsers (tbl : list User).

(** [redirect(url_for(endpoint))], [render_template(name, **args)],
    [jsonify(body), status], and the page the framework sends for an
    exception that leaves the view. *)
Inductive response :=
| Redirect (endpoint : string)
| RenderTemplate (name : string) (args : list (string * template_arg))
| Jsonify (body : json) (status : Z)
| ErrorPage (status : Z).

Definition status_code (r : response) : Z :=
  match r with
  | Redirect _ => 302
  | RenderTemplate _ _ => 200
  | Jsonify _ status => status
  | ErrorPage status => status
  end.

(** What a view leaves behind: its response, the messages it passed to
    [flash], and the state. *)
Record outcome := {
  reply : response;
  flashed : list string;
  after : world
}.

(** [login_user(p)] stores [p.get_id()] in the session when [p] is
    active. *)
Definition login_user (p : principal) (w : world) : world :=
  if is_active p then set_session w (get_id p) else w.

(** [logout_user()] *)
Definition logout_user (w : world) : world := set_session w None.

(** [current_user] at the start of a request: flask_login calls the
    [user_loader] on the stored id and falls back to the anonymous user
    when there is no id or the loader returns [None]. *)
Definition current_user (w : world) : Py.result principal :=
  match session_user_id w with
  | None => mret AnonymousUser
  | Some uid =>
      row ← load_user (users (db w)) uid;
      mret (match row with Some u => DbUser u | None => AnonymousUser end)
  end.

(** [login_manager.unauthorized()] with [login_view = "login"] *)
Definition unauthorized (w : world) : outcome :=
  {| reply := Redirect "login";
     flashed := ["Please log in to access this page."];
     after := w |}.

(** The decorator [@login_required] *)
Definition login_required (view : principal → world → Py.result outcome)
    (cu : principal) (w : world) : Py.result outcome :=
  authenticated ← is_authenticated cu;
  if negb authenticated then mret (unauthorized w) else view cu w.

(** [request.get_json(force=True)]: [None] is a body that does not parse *)
Definition get_json (body : option json) : Py.result json :=
  match body with
  | Some data => Py.Ok data
  | None => Py.Raise (Py.HTTPException 400 "Bad Request")
  end.

(** *** Routes - authentication *)

(** [home()] *)
Definition home (cu : principal) (w : world) : Py.result outcome :=
  authenticated ← is_authenticated cu;
  if (authenticated : bool) then
    Py.try_except
      (match getattr_role cu with
       | Some r =>
           if String.eqb r "admin"
           then mret {| reply := Redirect "admin_dashboard"; flashed := []; after := w |}
           else mret {| reply := Redirect "farmer_dashboard"; flashed := []; after := w |}
       | None => mret {| reply := Redirect "farmer_dashboard"; flashed := []; after := w |}
       end)
      (λ _, mret {| reply := Redirect "login"; flashed := []; after := w |})
  else mret {| reply := RenderTemplate "login.html" []; flashed := []; after := w |}.

(** [login()] *)
Definition login (m : method) (form : list (string * string)) (w : world)
  : outcome :=
  match m with
  | POST =>
      let name := Py.strip (form_get form "username" "") in
      let pw := form_get form "password" "" in
      let user := filter_by_username (users (db w)) name in
      match user with
      | Some u =>
          if check_password_hash (password u) pw && String.eqb (role u) "farmer"
          then {| reply := Redirect "farmer_dashboard"; flashed := [];
                  after := login_user (DbUser u) w |}
          else {| reply := RenderTemplate "login.html" [];
                  flashed := ["Invalid username or password (farmer only)."];
                  after := w |}
      | None =>
          {| reply := RenderTemplate "login.html" [];
             flashed := ["Invalid username or password (farmer only)."];
             after := w |}
      end
  | GET => {| reply := RenderTemplate "login.html" []; flashed := []; after := w |}
  end.

(** [register()].  The write of the new row is taken to succeed: the one
    constraint an insert can break, the unique username, is tested first. *)
Definition register (e : env) (m : method) (form : list (string * string))
    (w : world) : outcome :=
  match m with
  | POST =>
      let name := Py.strip (form_get form "username" "") in
      let pw := form_get form "password" "" in
      match filter_by_username (users (db w)) name with
      | Some _ =>
          {| reply := Redirect "register";
             flashed := ["Username already exists!"]; after := w |}
      | None =>
          if String.eqb name "" || String.eqb pw "" then
            {| reply := Redirect "register";
               flashed := ["Username and password required."]; after := w |}
          else
            let hashed := generate_password_hash (salt e) pw in
            let user := {| user_id := next_id (user_id <$> users (db w));
                           username := name; password := hashed;
                           role := "farmer" |} in
            {| reply := Redirect "login";
               flashed := ["Account created successfully. Login as farmer."];
               after := set_users w (users (db w) ++ [user]) |}
      end
  | GET => {| reply := RenderTemplate "register.html" []; flashed := []; after := w |}
  end.

(** [admin_login()]; the principal passed to [login_user] is [FakeAdmin]. *)
Definition admin_login (m : method) (form : list (string * string))
    (w : world) : outcome :=
  match m with
  | POST =>
      let name := Py.strip (form_get form "username" "") in
      let pw := form_get form "password" "" in
      if String.eqb name ADMIN_USERNAME && String.eqb pw ADMIN_PASSWORD then
        let admin_user := FakeAdmin in
        {| reply := Redirect "admin_dashboard"; flashed := [];
           after := login_user admin_user w |}
      else
        {| reply := RenderTemplate "admin_login.html" [];
           flashed := ["Invalid admin credentials."]; after := w |}
  | GET =>
      {| reply := RenderTemplate "admin_login.html" []; flashed := []; after := w |}
  end.

(** [logout()] *)
Definition logout_view (cu : principal) (w : world) : Py.result outcome :=
  mret {| reply := Redirect "login"; flashed := []; after := logout_user w |}.
Definition logout := login_required logout_view.

(** *** Dashboards *)

Definition farmer_dashboard_view (cu : principal) (w : world)
  : Py.result outcome :=
  mret {| reply := RenderTemplate "farmer_dashboard.html"
                     [("google_maps_key", ArgStr Config.GOOGLE_MAPS_API_KEY)];
          flashed := []; after := w |}.
Definition farmer_dashboard := login_required farmer_dashboard_view.

(** The body of [admin_dashboard()]; [and] evaluates [current_user.username]
    only when the role test holds. *)
Definition admin_dashboard_view (cu : principal) (w : world)
  : Py.result outcome :=
  rejected ←
    (if bool_decide (getattr_role cu ≠ Some "admin") then
       name ← attr_username cu;
       mret (negb (String.eqb name ADMIN_USERNAME))
     else mret false);
  if (rejected : bool) then
    mret {| reply := Redirect "login";
            flashed := ["Admin access required."]; after := w |}
  else
    let users := users (db w) in
    mret {| reply := RenderTemplate "admin_dashboard.html"
                       [("users", ArgUsers users)];
            flashed := []; after := w |}.
Definition admin_dashboard := login_required admin_dashboard_view.

(** *** NDVI API endpoints *)

Definition api_point_ndvi_view (e : env) (body : option json)
    (cu : principal) (w : world) : Py.result outcome :=
  data ← get_json body;
  lat ← (v ← py_get_default data "lat" (JFloat default_lat); py_float v);
  lon ← (v ← py_get_default data "lon" (JFloat default_lon); py_float v);
  point ← get_point_ndvi w e lat lon;
  true_color ← get_true_color_map w e lat lon;
  series ← get_ndvi_timeseries w e lat lon;
  meteo ← fetch_weather e lat lon;
  mret {| reply :=
            Jsonify (JObj [("ndvi_value", point.1);
                           ("ndvi_map", JStr point.2);
                           ("true_color", JStr true_color);
                           ("ts_dates", series.1);
                           ("ts_values", series.2);
                           ("weather", meteo.1);
                           ("forecast", meteo.2)]) 200;
          flashed := []; after := w |}.
Definition api_point_ndvi e body := login_required (api_point_ndvi_view e body).

Definition api_polygon_ndvi_view (e : env) (body : option json)
    (cu : principal) (w : world) : Py.result outcome :=
  data ← get_json body;
  coords ← py_get_default data "coords" (JArr []);
  stats ← get_polygon_ndvi_stats w e coords;
  mret {| reply := Jsonify (JObj [("stats", stats)]) 200;
          flashed := []; after := w |}.
Definition api_polygon_ndvi e body :=
  login_required (api_polygon_ndvi_view e body).

(** *** IoT endpoints *)

(** [float(data.get(k) or 0.0)] *)
Definition sensor_field (data : json) (k : string) : Py.result float :=
  v ← py_get data k;
  py_float (py_or v (JFloat fzero)).

(** [db.session.add(r); db.session.commit()] for a reading: the store
    assigns the key and the timestamp default. *)
Definition add_reading (e : env) (w : world)
    (cap res rain water temp hum : float) : Py.result (IoTReading * world) :=
  match commit_error e with
  | Some msg => Py.Raise (Py.DatabaseError msg)
  | None =>
      let r := {| reading_id := next_id (reading_id <$> readings (db w));
                  timestamp := now e;
                  cap_soil_pct := sql_real cap; res_soil_pct := sql_real res;
                  rain_pct := sql_real rain;
                  water_level_pct := sql_real water;
                  temperature_c := sql_real temp;
                  humidity_pct := sql_real hum |} in
      Py.Ok (r, set_readings w (readings (db w) ++ [r]))
  end.

(** The [try] block of [api_iot_upload]: build the reading from the six
    fields, save it, answer with its id. *)
Definition save_reading (e : env) (data : json) (w : world)
  : Py.result outcome :=
  cap ← sensor_field data "cap_soil_pct";
  res ← sensor_field data "res_soil_pct";
  rain ← sensor_field data "rain_pct";
  water ← sensor_field data "water_level_pct";
  temp ← sensor_field data "temperature_c";
  hum ← sensor_field data "humidity_pct";
  saved ← add_reading e w cap res rain water temp hum;
  mret {| reply := Jsonify (JObj [("ok", JBool true);
                                  ("id", JInt (reading_id saved.1))]) 200;
          flashed := []; after := saved.2 |}.

(** [api_iot_upload()] *)
Definition api_iot_upload (e : env) (body : option json) (w : world)
  : Py.result outcome :=
  data ← get_json body;
  if negb (truthy data) then
    mret {| reply := Jsonify (JObj [("ok", JBool false); ("error", JStr "no json")]) 400;
            flashed := []; after := w |}
  else
    key ← py_get data "api_key";
    if py_ne_str key IOT_API_KEY then
      mret {| reply := Jsonify (JObj [("ok", JBool false);
                                      ("error", JStr "invalid api_key")]) 403;
              flashed := []; after := w |}
    else
      Py.try_except
        (save_reading e data w)
        (λ ex,
           mret {| reply := Jsonify (JObj [("ok", JBool false);
                                           ("error", JStr (Py.exn_str ex))]) 500;
                   flashed := []; after := w |}).

(** The dict that [api_latest_iot] passes to [jsonify] for a reading. *)
Definition reading_json (r : IoTReading) : json :=
  JObj [("ok", JBool true);
        ("timestamp", JStr (isoformat (timestamp r)));
        ("cap_soil_pct", json_of_real (cap_soil_pct r));
        ("res_soil_pct", json_of_real (res_soil_pct r));
        ("rain_pct", json_of_real (rain_pct r));
        ("water_level_pct", json_of_real (water_level_pct r));
        ("temperature_c", json_of_real (temperature_c r));
        ("humidity_pct", json_of_real (humidity_pct r))].

(** [api_latest_iot()] *)
Definition api_latest_iot_view (cu : principal) (w : world)
  : Py.result outcome :=
  match latest_reading (readings (db w)) with
  | None =>
      mret {| reply := Jsonify (JObj [("ok", JBool false);
                                      ("error", JStr "no readings")]) 404;
              flashed := []; after := w |}
  | Some r =>
      mret {| reply := Jsonify (reading_json r) 200;
              flashed := []; after := w |}
  end.
Definition api_latest_iot := login_required api_latest_iot_view.

(** *** The application as a transition system *)

Inductive request :=
| ReqHome
| ReqLogin (m : method) (form : list (string * string))
| ReqRegister (m : method) (form : list (string * string))
| ReqAdminLogin (m : method) (form : list (string * string))
| ReqLogout
| ReqFarmerDashboard
| ReqAdminDashboard
| ReqPointNdvi (body : option json)
| ReqPolygonNdvi (body : option json)
| ReqIotUpload (body : option json)
| ReqLatestIot.

(** Routing: the view of the requested route runs with [current_user]
    loaded from the session. *)
Definition dispatch (e : env) (r : request) (w : world) : Py.result outcome :=
  cu ← current_user w;
  match r with
  | ReqHome => home cu w
  | ReqLogin m form => mret (login m form w)
  | ReqRegister m form => mret (register e m form w)
  | ReqAdminLogin m form => mret (admin_login m form w)
  | ReqLogout => logout cu w
  | ReqFarmerDashboard => farmer_dashboard cu w
  | ReqAdminDashboard => admin_dashboard cu w
  | ReqPointNdvi body => api_point_ndvi e body cu w
  | ReqPolygonNdvi body => api_polygon_ndvi e body cu w
  | ReqIotUpload body => api_iot_upload e body w
  | ReqLatestIot => api_latest_iot cu w
  end.

(** Flask turns an [HTTPException] into a response with its code and any
    other exception that leaves a view into a 500. *)
Definition serve (e : env) (r : request) (w : world) : outcome :=
  match dispatch e r w with
  | Py.Ok o => o
  | Py.Raise (Py.HTTPException code _) =>
      {| reply := ErrorPage code; flashed := []; after := w |}
  | Py.Raise _ => {| reply := ErrorPage 500; flashed := []; after := w |}
  end.

(** A run of the server over a sequence of requests. *)
Fixpoint run (trace : list (env * request)) (w : world) : world :=
  match trace with
  | [] => w
  | (e, r) :: rest => run rest (after (serve e r w))
  end.

End App.

(** ** Concrete instances, to run the model on examples *)

Module Demo.

(** werkzeug's legacy "plain" method: the stored form is the password
    behind a fixed prefix, whatever the salt. *)
Definition plain_hash : PasswordHash.
Proof.
  refine {| generate_password_hash := λ _ pw, "plain$$" +:+ pw;
            check_password_hash := λ h pw, String.eqb h ("plain$$" +:+ pw) |}.
  intros _ pw. apply String.eqb_refl.
Defined.

(** CPython with its default digit limit. *)
Definition cpython : Py.runtime.
Proof.
  refine {| Py.int_max_str_digits := 4300 |}.
  right. apply Nat.leb_le. reflexivity.
Defined.

#[local] Existing Instance cpython.

(** Exact rationals in place of binary floats; [float(s)] reads integer
    literals only. *)
Definition rational_floats : PyFloat :=
  {| float := QArith_base.Q;
     float_eq_dec := ltac:(solve_decision);
     fzero := QArith_base.Qmake 0 1;
     float_is_zero := λ q, QArith_base.Qnum q =? 0;
     float_is_nan := λ _, false;
     float_of_int := λ n, Py.Ok (QArith_base.Qmake n 1);
     float_of_str := λ s,
       match Py.int s with
       | Py.Ok n => Py.Ok (QArith_base.Qmake n 1)
       | Py.Raise _ =>
           Py.Raise (Py.ValueError ("could not convert string to float: " +:+ s))
       end;
     default_lat := QArith_base.Qmake 286139 10000;
     default_lon := QArith_base.Qmake 77209 1000 |}.

#[local] Existing Instance plain_hash.
#[local] Existing Instance rational_floats.

Definition noon : datetime :=
  {| year := 2024; month := 3; day := 9; hour := 12; minute := 0; second := 0 |}.

(** A request environment in which every provider call fails. *)
Definition offline (commit : option string) : env :=
  {| now := noon; salt := "s4lt"; commit_error := commit;
     getMapId := λ _ _, Py.Raise (Py.UpstreamError "network unreachable");
     reduce_mean := λ _ _, Py.Raise (Py.UpstreamError "network unreachable");
     reduce_stats := λ _ _, Py.Raise (Py.UpstreamError "network unreachable");
     series_getInfo := λ _ _, Py.Raise (Py.UpstreamError "network unreachable");
     folium_map := λ _ _ _, "<div>map</div>";
     weather_json := λ _ _, Py.Raise (Py.UpstreamError "timeout");
     forecast_json := λ _ _, Py.Raise (Py.UpstreamError "timeout") |}.

(** A start-up in which Earth Engine initialises, and one in which the
    libraries are missing. *)
Definition ee_ready : startup :=
  {| libs_imported := true; initialize := Py.Ok ();
     authenticate_initialize := Py.Ok () |}.
Definition ee_missing : startup :=
  {| libs_imported := false;
     initialize := Py.Raise (Py.UpstreamError "not installed");
     authenticate_initialize := Py.Raise (Py.UpstreamError "not installed") |}.

Definition creds (u p : string) : list (string * string) :=
  [("username", u); ("password", p)].

Definition alice : User :=
  {| user_id := 1; username := "alice"; password := "plain$$wonder";
     role := "farmer" |}.
Definition bob : User :=
  {| user_id := 2; username := "bob"; password := "plain$$builder";
     role := "farmer" |}.

Definition two_farmers : world :=
  set_users (initial_world ee_missing) [alice; bob].

(** Earth Engine is initialised and alice is logged in. *)
Definition alice_online : world :=
  set_session (set_users (initial_world ee_ready) [alice; bob]) (Some "1").


(** The state after a visitor registers the name "admin" with the
    password "admin123" on a fresh database. *)
Definition after_admin_signup : world :=
  after (register (offline None) POST (creds "admin" "admin123")
                  (initial_world ee_missing)).


(** Upload bodies: a complete one, the empty object, and one whose first
    field is a list. *)
Definition good_upload : list (string * json) :=
  [("api_key", JStr IOT_API_KEY); ("cap_soil_pct", JInt 41);
   ("temperature_c", JStr "23"); ("humidity_pct", JNull)].
Definition list_upload : list (string * json) :=
  [("api_key", JStr IOT_API_KEY); ("cap_soil_pct", JArr [JInt 1])].

Definition triangle : json :=
  JArr [JArr [JInt 28; JInt 77]; JArr [JInt 29; JInt 77]; JArr [JInt 29; JInt 78]].

End Demo.

(** ** Notions used to state properties of runs *)

(** A string of decimal digits. *)
Fixpoint digits_only (s : string) : bool :=
  match s with
  | EmptyString => true
  | String c s' => Py.is_digit c && digits_only s'
  end.

Section Runs.
Context {interp : Py.runtime} {hashing : PasswordHash} {floats : PyFloat}.

(** The states the server can be in: those a sequence of requests leads
    to from a fresh database. *)
Definition reachable (w : world) : Prop :=
  ∃ s trace, w = run trace (initial_world s).

(** The routes decorated with [@login_required]. *)
Definition protected (r : request) : bool :=
  match r with
  | ReqLogout | ReqFarmerDashboard | ReqAdminDashboard
  | ReqPointNdvi _ | ReqPolygonNdvi _ | ReqLatestIot => true
  | ReqHome | ReqLogin _ _ | ReqRegister _ _ | ReqAdminLogin _ _
  | ReqIotUpload _ => false
  end.

(** What one request can do to the state: the start-up flags stay, the
    User table stays or gains one row built by [register], the IoTReading
    table stays or gains one row built by [api_iot_upload]. *)
Definition new_user_row (w : world) (row : User) : Prop :=
  role row = "farmer"
  ∧ username row ≠ ""
  ∧ Py.strip (username row) = username row
  ∧ (∀ u, u ∈ users (db w) → username u ≠ username row)
  ∧ user_id row = next_id (user_id <$> users (db w)).

Definition step_ok (e : env) (w w' : world) : Prop :=
  folium w' = folium w ∧ ee_ok w' = ee_ok w
  ∧ (users (db w') = users (db w)
     ∨ ∃ row, users (db w') = users (db w) ++ [row] ∧ new_user_row w row)
  ∧ (readings (db w') = readings (db w)
     ∨ ∃ rd, readings (db w') = readings (db w) ++ [rd]
             ∧ reading_id rd = next_id (reading_id <$> readings (db w))
             ∧ timestamp rd = now e).

(** The shape of the stored tables in a state. *)
Definition store_ok (w : world) : Prop :=
  (∀ i u, users (db w) !! i = Some u →
          user_id u = Z.of_nat i + 1 ∧ role u = "farmer"
          ∧ username u ≠ "" ∧ Py.strip (username u) = username u)
  ∧ NoDup (username <$> users (db w))
  ∧ (∀ i rd, readings (db w) !! i = Some rd → reading_id rd = Z.of_nat i + 1)
  ∧ (ee_ok w = true → folium w = true).

End Runs.

(** ** Sample runs and provider answers *)

Module Samples.

#[local] Existing Instance Demo.cpython.
#[local] Existing Instance Demo.plain_hash.
#[local] Existing Instance Demo.rational_floats.

Definition feature (date : string) (ndvi : Z) : json :=
  JObj [("type", JStr "Feature");
        ("properties", JObj [("date", JStr date); ("NDVI", JInt ndvi)])].

(** A request environment in which the providers answer. *)
Definition online : env :=
  {| now := Demo.noon; salt := "pepper"; commit_error := None;
     getMapId := λ _ _, Py.Ok "https://tiles.example/{z}/{x}/{y}";
     reduce_mean := λ _ _, Py.Ok (JInt 1);
     reduce_stats := λ _ _,
       Py.Ok (JObj [("NDVI_min", JInt 0); ("NDVI_mean", JInt 1)]);
     series_getInfo := λ _ _,
       Py.Ok (JObj [("type", JStr "FeatureCollection");
                    ("columns", JObj []);
                    ("features",
                     JArr [feature "2024-01-05" 0; feature "2024-02-04" 1])]);
     folium_map := λ _ _ _, "<div>map</div>";
     weather_json := λ _ _, Py.Ok (JObj [("main", JStr "Clear")]);
     forecast_json := λ _ _, Py.Ok (JObj [("list", JArr [])]) |}.

(** Two registrations, a refused duplicate, two uploads, then carol logs
    in. *)
Definition trace : list (env * request) :=
  [(online, ReqRegister POST (Demo.creds " carol " "pw1"));
   (online, ReqRegister POST (Demo.creds "dave" "pw2"));
   (online, ReqRegister POST (Demo.creds "carol" "pw3"));
   (online, ReqIotUpload (Some (JObj Demo.good_upload)));
   (online, ReqIotUpload (Some (JObj Demo.good_upload)));
   (online, ReqLogin POST (Demo.creds "carol" "pw1"))].

Definition busy : world := run trace (initial_world Demo.ee_ready).

(** The same run without the final login. *)
Definition idle : world := run (take 5 trace) (initial_world Demo.ee_ready).


(** A literal of [n] zeros followed by a one. *)
Fixpoint zeros_one (n : nat) : string :=
  match n with
  | O => "1"
  | S n' => String "0"%char (zeros_one n')
  end.

End Samples.

(** Floats with a NaN, to run the upload on one. *)
Module Nan.

#[local] Existing Instance Demo.cpython.
#[local] Existing Instance Demo.plain_hash.

(** Whole numbers and a NaN ([None]); [float(s)] reads "nan" and integer
    literals. *)
Definition floats_with_nan : PyFloat :=
  {| float := option Z;
     float_eq_dec := ltac:(solve_decision);
     fzero := Some 0;
     float_is_zero := λ x, match x with Some 0 => true | _ => false end;
     float_is_nan := λ x, match x with None => true | Some _ => false end;
     float_of_int := λ n, Py.Ok (Some n);
     float_of_str := λ s,
       if String.eqb s "nan" then Py.Ok None
       else match Py.int s with
            | Py.Ok n => Py.Ok (Some n)
            | Py.Raise _ =>
                Py.Raise (Py.ValueError ("could not convert string to float: " +:+ s))
            end;
     default_lat := Some 28;
     default_lon := Some 77 |}.

#[local] Existing Instance floats_with_nan.

Definition nan : float := None.

Definition offline : env :=
  {| now := Demo.noon; salt := "s4lt"; commit_error := None;
     getMapId := λ _ _, Py.Raise (Py.UpstreamError "network unreachable");
     reduce_mean := λ _ _, Py.Raise (Py.UpstreamError "network unreachable");
     reduce_stats := λ _ _, Py.Raise (Py.UpstreamError "network unreachable");
     series_getInfo := λ _ _, Py.Raise (Py.UpstreamError "network unreachable");
     folium_map := λ _ _ _, "<div>map</div>";
     weather_json := λ _ _, Py.Raise (Py.UpstreamError "timeout");
     forecast_json := λ _ _, Py.Raise (Py.UpstreamError "timeout") |}.

Definition fresh : world := initial_world Demo.ee_missing.

Definition nan_upload : list (string * json) :=
  [("api_key", JStr IOT_API_KEY); ("cap_soil_pct", JInt 41);
   ("temperature_c", JStr "nan")].

Definition upload : world :=
  after (serve offline (ReqIotUpload (Some (JObj nan_upload))) fresh).

End Nan.

(** ** Facts about the queries *)

Section Queries.
Context {A B : Type} `{EqDecision B} (key : A → B).

Lemma first_by_key_Some (tbl : list A) (k : B) (x : A) :
  head (filter (λ y, key y = k) tbl) = Some x → x ∈ tbl ∧ key x = k.
Proof.
  induction tbl as [|y tbl IH]; [done|].
  rewrite filter_cons. case_decide as Hy; simpl.
  - intros [= ->]. split; [left | done].
  - intros Hx. destruct (IH Hx). split; [by right | done].
Qed.

Lemma first_by_key_None (tbl : list A) (k : B) :
  head (filter (λ y, key y = k) tbl) = None ↔ ∀ x, x ∈ tbl → key x ≠ k.
Proof.
  induction tbl as [|y tbl IH].
  - split; [intros _ x Hx; by apply not_elem_of_nil in Hx | done].
  - rewrite filter_cons. case_decide as Hy; simpl.
    + split; [done|]. intros Hall. destruct (Hall y); [left | done].
    + rewrite IH. split.
      * intros Hall x [->|Hx]%elem_of_cons; [done | by apply Hall].
      * intros Hall x Hx. apply Hall. by right.
Qed.

(** With a unique key the first match is the only row with that key. *)
Lemma first_by_key_unique (tbl : list A) (x : A) :
  NoDup (key <$> tbl) → x ∈ tbl →
  head (filter (λ y, key y = key x) tbl) = Some x.
Proof.
  induction tbl as [|y tbl IH]; intros Hnd Hx.
  - by apply not_elem_of_nil in Hx.
  - rewrite fmap_cons in Hnd. apply NoDup_cons in Hnd as [Hy Hnd].
    rewrite filter_cons. apply elem_of_cons in Hx as [->|Hx].
    + by rewrite decide_True.
    + rewrite decide_False; [by apply IH|].
      intros Heq. apply Hy. rewrite Heq. by apply list_elem_of_fmap_2.
Qed.

Lemma first_by_key_is_Some (tbl : list A) (k : B) :
  is_Some (head (filter (λ y, key y = k) tbl)) ↔ ∃ x, x ∈ tbl ∧ key x = k.
Proof.
  split.
  - intros [x Hx]. exists x. by apply first_by_key_Some.
  - intros (x & Hx & Hk).
    destruct (head (filter (λ y, key y = k) tbl)) eqn:E; [done|].
    exfalso. by eapply first_by_key_None.
Qed.
End Queries.

(** ** The authentication layer *)

Section Auth.
Context {interp : Py.runtime} {hashing : PasswordHash} {floats : PyFloat}.

Lemma load_user_eval (tbl : list User) (uid : string) :
  load_user tbl uid =
    Py.Ok (match Py.int uid with
           | Py.Ok n => query_get tbl n
           | Py.Raise _ => None
           end).
Proof. unfold load_user. by destruct (Py.int uid). Qed.

Lemma query_get_Some (tbl : list User) (n : Z) (u : User) :
  NoDup (user_id <$> tbl) →
  query_get tbl n = Some u ↔ u ∈ tbl ∧ user_id u = n.
Proof.
  intros Hnd. split; [apply first_by_key_Some|].
  intros [Hu <-]. by apply first_by_key_unique.
Qed.

(** C10. With the primary key unique, [load_user(uid)] returns the row
    whose id is [int(uid)] when [uid] reads as an integer and that row
    exists, and [None] for every other [uid]; it never raises, and the
    id "admin" that [FakeAdmin.get_id] stores gives [None]. *)
Theorem load_user_spec (tbl : list User) (uid : string) :
  NoDup (user_id <$> tbl) →
  (∀ u, load_user tbl uid = Py.Ok (Some u)
        ↔ u ∈ tbl ∧ Py.int uid = Py.Ok (user_id u))
  ∧ (load_user tbl uid = Py.Ok None
     ↔ ¬ ∃ u, u ∈ tbl ∧ Py.int uid = Py.Ok (user_id u))
  ∧ ¬ Py.raises (load_user tbl uid)
  ∧ load_user tbl "admin" = Py.Ok None.
Proof.
  intros Hnd. rewrite !load_user_eval.
  split; [|split; [|split]].
  - intros u. split.
    + intros [= Hu]. destruct (Py.int uid) as [n|]; [|done].
      apply query_get_Some in Hu as [? ->]; done.
    + intros [Hu ->]. f_equal. by apply query_get_Some.
  - split.
    + intros [= Hnone] (u & Hu & Hint). rewrite Hint in Hnone.
      assert (query_get tbl (user_id u) = Some u) by by apply query_get_Some.
      congruence.
    + intros Hnot. f_equal. destruct (Py.int uid) as [n|]; [|done].
      destruct (query_get tbl n) as [u|] eqn:Hq; [|done].
      apply query_get_Some in Hq as [? <-]; [|done].
      destruct Hnot. by exists u.
  - intros [e He]. discriminate He.
  - reflexivity.
Qed.

(** C1 (amended). Under the unique-username constraint, a farmer login
    succeeds exactly when a row whose username is the submitted username
    with surrounding whitespace stripped exists, its hash verifies the
    password and its role is "farmer"; the session then holds that row's
    id; every failure is the same generic response and leaves the state
    alone.  The admin pair is no exception to the rule. *)
Theorem login_spec (form : list (string * string)) (w : world) :
  NoDup (username <$> users (db w)) →
  let name := Py.strip (form_get form "username" "") in
  let pw := form_get form "password" "" in
  let o := login POST form w in
  (reply o = Redirect "farmer_dashboard"
   ↔ ∃ u, u ∈ users (db w) ∧ username u = name
          ∧ check_password_hash (password u) pw = true ∧ role u = "farmer")
  ∧ (∀ u, u ∈ users (db w) → username u = name →
          check_password_hash (password u) pw = true → role u = "farmer" →
          o = {| reply := Redirect "farmer_dashboard"; flashed := [];
                 after := set_session w (Some (Py.str_int (user_id u))) |})
  ∧ (reply o ≠ Redirect "farmer_dashboard" →
     o = {| reply := RenderTemplate "login.html" [];
            flashed := ["Invalid username or password (farmer only)."];
            after := w |}).
Proof.
  intros Hnd name pw o. subst o. unfold login. fold name pw.
  unfold filter_by_username.
  destruct (head (filter (λ u, username u = name) (users (db w))))
    as [u|] eqn:Hfind.
  - pose proof (first_by_key_Some username _ _ _ Hfind) as [Hu Hname].
    assert (∀ u', u' ∈ users (db w) → username u' = name → u' = u) as Huniq.
    { intros u' Hu' Hname'.
      pose proof (first_by_key_unique username _ u' Hnd Hu') as Hfirst.
      rewrite Hname' in Hfirst. congruence. }
    assert (∀ u', u' ∈ users (db w) → username u' = name →
                  check_password_hash (password u') pw = true →
                  role u' = "farmer" →
                  check_password_hash (password u) pw = true
                  ∧ String.eqb (role u) "farmer" = true) as Hsame.
    { intros u' Hu' Hname' Hcheck' Hrole'. rewrite <- (Huniq u' Hu' Hname').
      split; [done | by apply String.eqb_eq]. }
    destruct (check_password_hash (password u) pw
              && String.eqb (role u) "farmer") eqn:Hok.
    + apply andb_true_iff in Hok as [Hcheck Hrole%String.eqb_eq].
      split; [|split].
      * split; [intros _; by exists u | done].
      * intros u' Hu' Hname' _ _. by rewrite (Huniq u' Hu' Hname').
      * intros Hne. by destruct Hne.
    + apply andb_false_iff in Hok.
      assert (¬ ∃ u', u' ∈ users (db w) ∧ username u' = name
                      ∧ check_password_hash (password u') pw = true
                      ∧ role u' = "farmer") as Hnot.
      { intros (u' & Hu' & Hname' & Hcheck' & Hrole').
        destruct (Hsame u' Hu' Hname' Hcheck' Hrole') as [? ?].
        destruct Hok; congruence. }
      split; [|split].
      * split; [done | intros Hex; by destruct Hnot].
      * intros u' Hu' Hname' Hcheck' Hrole'. destruct Hnot. by exists u'.
      * done.
  - pose proof (proj1 (first_by_key_None username _ _) Hfind) as Hnone.
    split; [|split].
    + split; [done|]. intros (u' & Hu' & Hname' & _). by destruct (Hnone u').
    + intros u' Hu' Hname' _ _. by destruct (Hnone u' Hu').
    + done.
Qed.

End Auth.

Section AdminAndRegister.
Context {interp : Py.runtime} {hashing : PasswordHash} {floats : PyFloat}.

(** C2 (amended). An admin login succeeds exactly when the submitted
    username, with surrounding whitespace stripped, and the password are
    the fixed pair; it then logs in [FakeAdmin], whose id token and role
    are both "admin"; any other input gets the one error response; the
    store is neither changed nor consulted. *)
Theorem admin_login_spec (form : list (string * string)) (w : world) :
  let name := Py.strip (form_get form "username" "") in
  let pw := form_get form "password" "" in
  let o := admin_login POST form w in
  (reply o = Redirect "admin_dashboard"
   ↔ name = ADMIN_USERNAME ∧ pw = ADMIN_PASSWORD)
  ∧ (name = ADMIN_USERNAME ∧ pw = ADMIN_PASSWORD →
     o = {| reply := Redirect "admin_dashboard"; flashed := [];
            after := login_user FakeAdmin w |}
     ∧ session_user_id (after o) = Some "admin"
     ∧ get_id FakeAdmin = Some "admin"
     ∧ getattr_role FakeAdmin = Some "admin")
  ∧ (¬ (name = ADMIN_USERNAME ∧ pw = ADMIN_PASSWORD) →
     o = {| reply := RenderTemplate "admin_login.html" [];
            flashed := ["Invalid admin credentials."]; after := w |})
  ∧ db (after o) = db w
  ∧ (∀ tbl, let o' := admin_login POST form (set_users w tbl) in
            reply o' = reply o ∧ flashed o' = flashed o
            ∧ session_user_id (after o') = session_user_id (after o)
            ∧ users (db (after o')) = tbl).
Proof.
  intros name pw o. subst o. unfold admin_login. fold name pw.
  destruct (String.eqb name ADMIN_USERNAME && String.eqb pw ADMIN_PASSWORD)
    eqn:Hok.
  - apply andb_true_iff in Hok as [Hn%String.eqb_eq Hp%String.eqb_eq].
    repeat apply conj; try done. intros Hnot. by destruct Hnot.
  - assert (¬ (name = ADMIN_USERNAME ∧ pw = ADMIN_PASSWORD)) as Hnot.
    { intros [Hn%String.eqb_eq Hp%String.eqb_eq]. rewrite Hn, Hp in Hok.
      discriminate Hok. }
    repeat apply conj; try done.
Qed.


End AdminAndRegister.

(** ** Reasoning about views in the error monad *)

Lemma bind_Ok_inv {A B} (m : Py.result A) (k : A → Py.result B) (b : B) :
  m ≫= k = Py.Ok b → ∃ a, m = Py.Ok a ∧ k a = Py.Ok b.
Proof. destruct m as [a|e]; [by exists a | done]. Qed.

Lemma try_except_Ok_inv {A} (m : Py.result A) (h : Py.exn → Py.result A) (a : A) :
  Py.try_except m h = Py.Ok a → m = Py.Ok a ∨ ∃ e, m = Py.Raise e ∧ h e = Py.Ok a.
Proof. destruct m as [a'|e]; [by left | right; by exists e]. Qed.

(** Peel the binds off a hypothesis [H : m ≫= k = Py.Ok _]. *)
Ltac inv_bind H :=
  repeat (let a := fresh "a" in
          let Ha := fresh "Ha" in
          apply bind_Ok_inv in H as (a & Ha & H));
  try (injection H as <-).

Section Dashboards.
Context {interp : Py.runtime} {hashing : PasswordHash} {floats : PyFloat}.

Lemma authenticated_is_row (cu : principal) :
  is_authenticated cu = Py.Ok true ↔ ∃ u, cu = DbUser u.
Proof.
  split; [|by intros [u ->]].
  destruct cu as [u| |]; [by exists u | done | done].
Qed.

Lemma unauthenticated_is_anonymous (cu : principal) :
  is_authenticated cu = Py.Ok false ↔ cu = AnonymousUser.
Proof. split; [by destruct cu | by intros ->]. Qed.

(** C4. For an authenticated principal the admin dashboard is rendered
    (with the whole User table) exactly when its role is "admin" or its
    username is the fixed admin name; otherwise the view flashes "Admin
    access required." and redirects to the login page; an
    unauthenticated principal is turned away by [login_required] before
    the view runs. *)
Theorem admin_dashboard_spec (cu : principal) (w : world) :
  (is_authenticated cu = Py.Ok true →
   ∃ o, admin_dashboard cu w = Py.Ok o ∧ after o = w
        ∧ (reply o = RenderTemplate "admin_dashboard.html"
                       [("users", ArgUsers (users (db w)))]
           ↔ getattr_role cu = Some "admin"
             ∨ attr_username cu = Py.Ok ADMIN_USERNAME)
        ∧ (¬ (getattr_role cu = Some "admin"
              ∨ attr_username cu = Py.Ok ADMIN_USERNAME) →
           reply o = Redirect "login"
           ∧ flashed o = ["Admin access required."]))
  ∧ (is_authenticated cu = Py.Ok false →
     admin_dashboard cu w = Py.Ok (unauthorized w)).
Proof.
  split.
  - intros [u ->]%authenticated_is_row.
    unfold admin_dashboard, login_required, admin_dashboard_view. simpl.
    case_bool_decide as Hrole; simpl.
    + destruct (String.eqb (username u) ADMIN_USERNAME) eqn:Hname; simpl.
      * apply String.eqb_eq in Hname. eexists. split; [reflexivity|]. simpl.
        split; [done|]. split; [|intros Hnot; destruct Hnot; right; by f_equal].
        split; [intros _; right; by f_equal | done].
      * apply String.eqb_neq in Hname. eexists. split; [reflexivity|]. simpl.
        split; [done|]. split; [|done].
        split; [done|]. intros [?|[=]]; done.
    + eexists. split; [reflexivity|]. simpl.
      split; [done|]. split; [|intros Hnot; destruct Hnot; by left].
      split; [intros _; by left | done].
  - by intros ->%unauthenticated_is_anonymous.
Qed.

(** The object [FakeAdmin] passes the test of the view body but not the
    decorator, which reads an attribute the class does not define. *)
Lemma admin_dashboard_view_FakeAdmin (w : world) :
  admin_dashboard_view FakeAdmin w
  = Py.Ok {| reply := RenderTemplate "admin_dashboard.html"
                        [("users", ArgUsers (users (db w)))];
             flashed := []; after := w |}
  ∧ Py.raises (admin_dashboard FakeAdmin w).
Proof. split; [reflexivity | eexists; reflexivity]. Qed.

Lemma current_user_total (w : world) : ∃ cu, current_user w = Py.Ok cu.
Proof.
  unfold current_user. destruct (session_user_id w) as [uid|]; [|by eexists].
  rewrite load_user_eval. simpl. by eexists.
Qed.

(** After an admin login the next request runs as the anonymous user:
    the stored id "admin" does not load. *)
Lemma current_user_after_admin_login (w : world) :
  current_user (login_user FakeAdmin w) = Py.Ok AnonymousUser.
Proof. reflexivity. Qed.

End Dashboards.

(** ** What each view does to the store *)

Section Frames.
Context {interp : Py.runtime} {hashing : PasswordHash} {floats : PyFloat}.

Lemma login_required_inv (view : principal → world → Py.result outcome)
    (cu : principal) (w : world) (o : outcome) :
  login_required view cu w = Py.Ok o →
  (is_authenticated cu = Py.Ok false ∧ o = unauthorized w)
  ∨ (is_authenticated cu = Py.Ok true ∧ view cu w = Py.Ok o).
Proof.
  unfold login_required. intros H.
  apply bind_Ok_inv in H as ([|] & Hauth & H); simpl in H.
  - by right.
  - left. split; [done|]. by injection H as <-.
Qed.

Lemma home_after (cu : principal) (w : world) (o : outcome) :
  home cu w = Py.Ok o → after o = w.
Proof.
  unfold home. intros H. apply bind_Ok_inv in H as ([|] & _ & H).
  - destruct (getattr_role cu) as [r|]; simpl in H;
      [destruct (String.eqb r "admin")|]; by injection H as <-.
  - by injection H as <-.
Qed.

Lemma login_db (m : method) (form : list (string * string)) (w : world) :
  db (after (login m form w)) = db w.
Proof.
  unfold login. destruct m; [done|].
  destruct (filter_by_username _ _) as [u|]; [|done].
  by destruct (_ && _).
Qed.

Lemma admin_login_db (m : method) (form : list (string * string)) (w : world) :
  db (after (admin_login m form w)) = db w.
Proof. unfold admin_login. destruct m; [done|]. by destruct (_ && _). Qed.

(** [register] leaves the table alone or appends one farmer row. *)
Lemma register_users (e : env) (m : method) (form : list (string * string))
    (w : world) :
  readings (db (after (register e m form w))) = readings (db w)
  ∧ (users (db (after (register e m form w))) = users (db w)
     ∨ ∃ row, role row = "farmer"
              ∧ users (db (after (register e m form w))) = users (db w) ++ [row]).
Proof.
  unfold register. destruct m; [split; [done | by left]|].
  destruct (filter_by_username _ _); [split; [done | by left]|].
  destruct (_ || _); [split; [done | by left]|].
  split; [done|]. right. eexists. split; [|reflexivity]. reflexivity.
Qed.

Lemma api_point_ndvi_view_after (e : env) (body : option json)
    (cu : principal) (w : world) (o : outcome) :
  api_point_ndvi_view e body cu w = Py.Ok o → after o = w.
Proof. unfold api_point_ndvi_view. intros H. by inv_bind H. Qed.

Lemma api_polygon_ndvi_view_after (e : env) (body : option json)
    (cu : principal) (w : world) (o : outcome) :
  api_polygon_ndvi_view e body cu w = Py.Ok o → after o = w.
Proof. unfold api_polygon_ndvi_view. intros H. by inv_bind H. Qed.

Lemma admin_dashboard_view_after (cu : principal) (w : world) (o : outcome) :
  admin_dashboard_view cu w = Py.Ok o → after o = w.
Proof.
  unfold admin_dashboard_view. intros H.
  apply bind_Ok_inv in H as ([|] & _ & H); by injection H as <-.
Qed.

Lemma api_latest_iot_view_after (cu : principal) (w : world) (o : outcome) :
  api_latest_iot_view cu w = Py.Ok o → after o = w.
Proof.
  unfold api_latest_iot_view.
  destruct (latest_reading _); intros H; by injection H as <-.
Qed.

Lemma add_reading_inv (e : env) (w : world) (cap res rain water temp hum : float)
    (r : IoTReading) (w' : world) :
  add_reading e w cap res rain water temp hum = Py.Ok (r, w') →
  commit_error e = None
  ∧ r = {| reading_id := next_id (reading_id <$> readings (db w));
           timestamp := now e;
           cap_soil_pct := sql_real cap; res_soil_pct := sql_real res;
           rain_pct := sql_real rain; water_level_pct := sql_real water;
           temperature_c := sql_real temp; humidity_pct := sql_real hum |}
  ∧ w' = set_readings w (readings (db w) ++ [r]).
Proof.
  unfold add_reading. destruct (commit_error e); [done|].
  intros [= <- <-]. done.
Qed.

Lemma api_iot_upload_users (e : env) (body : option json) (w : world)
    (o : outcome) :
  api_iot_upload e body w = Py.Ok o → users (db (after o)) = users (db w).
Proof.
  unfold api_iot_upload. intros H.
  apply bind_Ok_inv in H as (data & _ & H).
  destruct (negb (truthy data)); [by injection H as <-|].
  apply bind_Ok_inv in H as (key & _ & H).
  destruct (py_ne_str key IOT_API_KEY); [by injection H as <-|].
  apply try_except_Ok_inv in H as [H|(ex & _ & H)]; [|by injection H as <-].
  unfold save_reading in H. inv_bind H. destruct a5 as [r w'].
  apply add_reading_inv in Ha5 as (_ & _ & ->). done.
Qed.

(** One request leaves the User table alone or appends one farmer row. *)
Lemma serve_users (e : env) (r : request) (w : world) :
  users (db (after (serve e r w))) = users (db w)
  ∨ ∃ row, role row = "farmer"
           ∧ users (db (after (serve e r w))) = users (db w) ++ [row].
Proof.
  unfold serve. destruct (dispatch e r w) as [o|ex] eqn:Hd;
    [|left; by destruct ex].
  unfold dispatch in Hd. destruct (current_user_total w) as [cu Hcu].
  rewrite Hcu in Hd. simpl in Hd. destruct r.
  - left. by rewrite (home_after _ _ _ Hd).
  - injection Hd as <-. left. by rewrite login_db.
  - injection Hd as <-. apply register_users.
  - injection Hd as <-. left. by rewrite admin_login_db.
  - left. apply login_required_inv in Hd as [[_ ->]|[_ Hd]]; [done|].
    by injection Hd as <-.
  - left. apply login_required_inv in Hd as [[_ ->]|[_ Hd]]; [done|].
    by injection Hd as <-.
  - left. apply login_required_inv in Hd as [[_ ->]|[_ Hd]]; [done|].
    by rewrite (admin_dashboard_view_after _ _ _ Hd).
  - left. apply login_required_inv in Hd as [[_ ->]|[_ Hd]]; [done|].
    by rewrite (api_point_ndvi_view_after _ _ _ _ _ Hd).
  - left. apply login_required_inv in Hd as [[_ ->]|[_ Hd]]; [done|].
    by rewrite (api_polygon_ndvi_view_after _ _ _ _ _ Hd).
  - left. by apply api_iot_upload_users in Hd.
  - left. apply login_required_inv in Hd as [[_ ->]|[_ Hd]]; [done|].
    by rewrite (api_latest_iot_view_after _ _ _ Hd).
Qed.

(** C3. From the empty table of a fresh database, after any sequence of
    requests to any of the routes, every row of the User table has the
    role "farmer": no route stores a row with the role "admin". *)
Theorem users_are_farmers (s : startup) (trace : list (env * request)) :
  Forall (λ u, role u = "farmer") (users (db (run trace (initial_world s)))).
Proof.
  assert (∀ w, Forall (λ u, role u = "farmer") (users (db w)) →
               Forall (λ u, role u = "farmer") (users (db (run trace w))))
    as Hrun.
  { induction trace as [|[e r] trace IH]; intros w Hw; [done|].
    simpl. apply IH.
    destruct (serve_users e r w) as [->|(row & Hrow & ->)]; [done|].
    apply Forall_app. split; [done|]. by constructor. }
  apply Hrun. constructor.
Qed.

End Frames.

(** ** Telemetry *)

Section Telemetry.
Context {interp : Py.runtime} {hashing : PasswordHash} {floats : PyFloat}.

Global Instance newer_first_trans : Transitive newer_first.
Proof. unfold newer_first. intros a b c ??. lia. Qed.

Global Instance newer_first_total : Total newer_first.
Proof. unfold newer_first. intros a b. lia. Qed.



Lemma py_ne_str_false (v : json) (s : string) :
  py_ne_str v s = false ↔ v = JStr s.
Proof.
  destruct v; simpl; try by split.
  rewrite negb_false_iff, String.eqb_eq. split; [by intros -> | by intros [= ->]].
Qed.

Lemma truthy_JObj (fields : list (string * json)) :
  truthy (JObj fields) = true ↔ fields ≠ [].
Proof. by destruct fields. Qed.

(** What [api_iot_upload] does on a non-empty object, by the test on
    the key. *)
Lemma api_iot_upload_bad_key (e : env) (fields : list (string * json))
    (w : world) :
  fields ≠ [] → assoc "api_key" fields ≠ Some (JStr IOT_API_KEY) →
  api_iot_upload e (Some (JObj fields)) w
  = Py.Ok {| reply := Jsonify (JObj [("ok", JBool false);
                                     ("error", JStr "invalid api_key")]) 403;
             flashed := []; after := w |}.
Proof.
  intros Hne Hkey. unfold api_iot_upload. simpl.
  destruct fields as [|kv fields]; [done|]. simpl truthy. simpl negb.
  cbv iota. unfold py_get. simpl.
  destruct (py_ne_str _ _) eqn:Hcmp; [done|].
  apply py_ne_str_false in Hcmp. destruct Hkey.
  change (assoc "api_key" (kv :: fields)) with
    (let '(k', v) := kv in if String.eqb k' "api_key" then Some v
                           else assoc "api_key" fields).
  destruct kv as [k' v]. simpl in Hcmp |- *.
  destruct (String.eqb k' "api_key"); simpl in Hcmp; [by rewrite Hcmp|].
  destruct (assoc "api_key" fields); simpl in Hcmp; [by rewrite Hcmp | done].
Qed.

Lemma serve_iot_upload (e : env) (body : option json) (w : world) :
  serve e (ReqIotUpload body) w
  = match api_iot_upload e body w with
    | Py.Ok o => o
    | Py.Raise (Py.HTTPException code _) =>
        {| reply := ErrorPage code; flashed := []; after := w |}
    | Py.Raise _ => {| reply := ErrorPage 500; flashed := []; after := w |}
    end.
Proof.
  unfold serve, dispatch. destruct (current_user_total w) as [cu ->]. done.
Qed.

Lemma api_iot_upload_good_key (e : env) (fields : list (string * json))
    (w : world) :
  assoc "api_key" fields = Some (JStr IOT_API_KEY) →
  api_iot_upload e (Some (JObj fields)) w
  = Py.try_except
      (save_reading e (JObj fields) w)
      (λ ex, mret {| reply := Jsonify (JObj [("ok", JBool false);
                                             ("error", JStr (Py.exn_str ex))]) 500;
                     flashed := []; after := w |}).
Proof.
  intros Hkey. unfold api_iot_upload. simpl.
  destruct fields as [|kv fields]; [done|]. simpl truthy. simpl negb.
  cbv iota. unfold py_get. simpl py_get_default. rewrite Hkey. reflexivity.
Qed.

Lemma save_reading_inv (e : env) (data : json) (w : world) (o : outcome) :
  save_reading e data w = Py.Ok o →
  commit_error e = None
  ∧ ∃ r, (∃ x, sensor_field data "cap_soil_pct" = Py.Ok x
               ∧ cap_soil_pct r = sql_real x)
         ∧ (∃ x, sensor_field data "res_soil_pct" = Py.Ok x
                 ∧ res_soil_pct r = sql_real x)
         ∧ (∃ x, sensor_field data "rain_pct" = Py.Ok x
                 ∧ rain_pct r = sql_real x)
         ∧ (∃ x, sensor_field data "water_level_pct" = Py.Ok x
                 ∧ water_level_pct r = sql_real x)
         ∧ (∃ x, sensor_field data "temperature_c" = Py.Ok x
                 ∧ temperature_c r = sql_real x)
         ∧ (∃ x, sensor_field data "humidity_pct" = Py.Ok x
                 ∧ humidity_pct r = sql_real x)
         ∧ reading_id r = next_id (reading_id <$> readings (db w))
         ∧ timestamp r = now e
         ∧ o = {| reply := Jsonify (JObj [("ok", JBool true);
                                          ("id", JInt (reading_id r))]) 200;
                  flashed := [];
                  after := set_readings w (readings (db w) ++ [r]) |}.
Proof.
  unfold save_reading. intros H. inv_bind H. destruct a5 as [r w'].
  apply add_reading_inv in Ha5 as (Hcommit & -> & ->).
  split; [done|].
  match goal with |- context [set_readings w (_ ++ [?r])] => exists r end.
  repeat split; by eexists.
Qed.

(** C6 (amended). A body that does not parse gets status 400, and so
    does a body that parses to an empty (falsy) value, before the key is
    looked at; a non-empty object whose [api_key] is absent or not the
    shared secret gets status 403; no request without the secret changes
    the state, so none stores a reading; with the right secret, a failing
    store write gets status 500 and leaves the state alone, and when the
    six fields convert the error text is the message of that failure. *)
Theorem iot_upload_rejections (e : env) (body : option json) (w : world) :
  let o := serve e (ReqIotUpload body) w in
  (body = None → status_code (reply o) = 400 ∧ after o = w)
  ∧ (∀ data, body = Some data → truthy data = false →
     reply o = Jsonify (JObj [("ok", JBool false); ("error", JStr "no json")]) 400
     ∧ after o = w)
  ∧ (∀ fields, body = Some (JObj fields) → fields ≠ [] →
     assoc "api_key" fields ≠ Some (JStr IOT_API_KEY) →
     reply o = Jsonify (JObj [("ok", JBool false);
                              ("error", JStr "invalid api_key")]) 403
     ∧ after o = w)
  ∧ ((¬ ∃ fields, body = Some (JObj fields)
                  ∧ assoc "api_key" fields = Some (JStr IOT_API_KEY)) →
     after o = w)
  ∧ (∀ fields msg, body = Some (JObj fields) →
     assoc "api_key" fields = Some (JStr IOT_API_KEY) →
     commit_error e = Some msg →
     status_code (reply o) = 500 ∧ after o = w
     ∧ ((∀ k, k ∈ ["cap_soil_pct"; "res_soil_pct"; "rain_pct";
                    "water_level_pct"; "temperature_c"; "humidity_pct"] →
              ∃ x, sensor_field (JObj fields) k = Py.Ok x) →
        reply o = Jsonify (JObj [("ok", JBool false); ("error", JStr msg)]) 500)).
Proof.
  intros o. subst o. rewrite serve_iot_upload.
  split; [|split; [|split; [|split]]].
  - by intros ->.
  - intros data -> Hfalsy. unfold api_iot_upload. simpl. by rewrite Hfalsy.
  - intros fields -> Hne Hkey. by rewrite api_iot_upload_bad_key.
  - intros Hnot. destruct body as [data|]; [|done].
    destruct (truthy data) eqn:Htruthy;
      [|unfold api_iot_upload; simpl; by rewrite Htruthy].
    destruct data as [| | | | |items|fields];
      try (unfold api_iot_upload; simpl; simpl in Htruthy; by rewrite ?Htruthy).
    rewrite api_iot_upload_bad_key; [done | by apply truthy_JObj |].
    intros Hkey. destruct Hnot. by exists fields.
  - intros fields msg -> Hkey Hcommit.
    rewrite api_iot_upload_good_key by done.
    destruct (save_reading e (JObj fields) w) as [o|ex] eqn:Hsave.
    { apply save_reading_inv in Hsave as [Hnone _]. congruence. }
    simpl. split; [done|]. split; [done|]. intros Hfields.
    unfold save_reading in Hsave.
    destruct (Hfields "cap_soil_pct") as [? E1]; [by repeat constructor|].
    destruct (Hfields "res_soil_pct") as [? E2]; [by repeat constructor|].
    destruct (Hfields "rain_pct") as [? E3]; [by repeat constructor|].
    destruct (Hfields "water_level_pct") as [? E4]; [by repeat constructor|].
    destruct (Hfields "temperature_c") as [? E5]; [by repeat constructor|].
    destruct (Hfields "humidity_pct") as [? E6]; [by repeat constructor|].
    rewrite E1, E2, E3, E4, E5, E6 in Hsave. simpl in Hsave.
    unfold add_reading in Hsave. rewrite Hcommit in Hsave. simpl in Hsave.
    by injection Hsave as <-.
Qed.

Lemma sensor_field_eval (fields : list (string * json)) (k : string) :
  sensor_field (JObj fields) k
  = match assoc k fields with
    | Some v => if truthy v then py_float v else Py.Ok fzero
    | None => Py.Ok fzero
    end.
Proof.
  unfold sensor_field, py_get, py_or. simpl.
  destruct (assoc k fields) as [v|]; simpl; [|done].
  by destruct (truthy v).
Qed.

(** C7 (amended). For a request that carries the shared secret, whose
    six fields convert to floats and whose store write succeeds, exactly
    one reading is appended: its six fields are the converted request
    fields ([float(v)] of a field that is present and truthy, 0.0 for
    one that is missing or falsy) as the store keeps them, that is, NULL
    in place of a NaN, 0.0 for a negative zero and the value itself
    otherwise; its timestamp is the server clock at the insertion, its id
    is new, and the response is that id with ok=true. *)
Theorem iot_upload_persists (e : env) (fields : list (string * json))
    (w : world) (cap res rain water temp hum : float) :
  assoc "api_key" fields = Some (JStr IOT_API_KEY) →
  commit_error e = None →
  sensor_field (JObj fields) "cap_soil_pct" = Py.Ok cap →
  sensor_field (JObj fields) "res_soil_pct" = Py.Ok res →
  sensor_field (JObj fields) "rain_pct" = Py.Ok rain →
  sensor_field (JObj fields) "water_level_pct" = Py.Ok water →
  sensor_field (JObj fields) "temperature_c" = Py.Ok temp →
  sensor_field (JObj fields) "humidity_pct" = Py.Ok hum →
  let r := {| reading_id := next_id (reading_id <$> readings (db w));
              timestamp := now e;
              cap_soil_pct := sql_real cap; res_soil_pct := sql_real res;
              rain_pct := sql_real rain; water_level_pct := sql_real water;
              temperature_c := sql_real temp; humidity_pct := sql_real hum |} in
  serve e (ReqIotUpload (Some (JObj fields))) w
  = {| reply := Jsonify (JObj [("ok", JBool true);
                               ("id", JInt (reading_id r))]) 200;
       flashed := [];
       after := set_readings w (readings (db w) ++ [r]) |}
  ∧ ¬ (reading_id r ∈ reading_id <$> readings (db w))
  ∧ (∀ k, assoc k fields = None → sensor_field (JObj fields) k = Py.Ok fzero)
  ∧ (∀ k v, assoc k fields = Some v →
            sensor_field (JObj fields) k
            = if truthy v then py_float v else Py.Ok fzero).
Proof.
  intros Hkey Hcommit E1 E2 E3 E4 E5 E6 r.
  split; [|split; [|split]].
  - rewrite serve_iot_upload, api_iot_upload_good_key by done.
    unfold save_reading. rewrite E1, E2, E3, E4, E5, E6. simpl.
    unfold add_reading. by rewrite Hcommit.
  - intros (r' & Hid & Hr')%list_elem_of_fmap.
    assert (reading_id r' ≤ foldr Z.max 0 (reading_id <$> readings (db w)))
      as Hle.
    { clear -Hr'.
      induction Hr' as [|? ? ? ? IH]; rewrite fmap_cons; simpl; lia. }
    simpl in Hid. unfold next_id in Hid. lia.
  - intros k Hk. by rewrite sensor_field_eval, Hk.
  - intros k v Hk. by rewrite sensor_field_eval, Hk.
Qed.


End Telemetry.

(** ** The imagery adapters under provider failure *)

Section Adapters.
Context {interp : Py.runtime} {hashing : PasswordHash} {floats : PyFloat}.

(** [get_point_ndvi] has an answer whatever the provider does, and the
    value is null when the provider is not initialised or a provider
    call fails. *)
Lemma get_point_ndvi_total (w : world) (e : env) (lat lon : float) :
  ∃ v html, get_point_ndvi w e lat lon = Py.Ok (v, html).
Proof.
  unfold get_point_ndvi. destruct (negb (ee_ok w && folium w)); [by eexists _, _|].
  destruct (get_latest_s2_image _ _ _); [|by eexists _, _].
  destruct (getMapId _ _ _); [|by eexists _, _].
  destruct (reduce_mean _ _ _); by eexists _, _.
Qed.

Lemma get_point_ndvi_uninitialised (w : world) (e : env) (lat lon : float) :
  ee_ok w && folium w = false →
  get_point_ndvi w e lat lon
  = Py.Ok (JNull, "<p>NDVI unavailable (EE/folium missing).</p>").
Proof. unfold get_point_ndvi. by intros ->. Qed.

Lemma get_point_ndvi_map_failure (w : world) (e : env) (lat lon : float) :
  ee_ok w && folium w = true →
  (∀ img, Py.raises (getMapId e img NdviVis)) →
  get_point_ndvi w e lat lon = Py.Ok (JNull, "<p>NDVI map error.</p>").
Proof.
  intros Hok Hfail. unfold get_point_ndvi, get_latest_s2_image. rewrite Hok.
  apply andb_true_iff in Hok as [-> _]. simpl.
  by destruct (Hfail (NormalizedDifference
    (First (SortBy (FilterDate (FilterBounds (ImageCollection "COPERNICUS/S2_SR")
                                             (GeomPoint lon lat)) 60 (now e))
                   "CLOUDY_PIXEL_PERCENTAGE")) ["B8"; "B4"] "NDVI")) as [ex ->].
Qed.

Lemma get_point_ndvi_value_failure (w : world) (e : env) (lat lon : float) :
  (∀ img g, Py.raises (reduce_mean e img g)) →
  ∃ html, get_point_ndvi w e lat lon = Py.Ok (JNull, html).
Proof.
  intros Hfail. unfold get_point_ndvi.
  destruct (negb (ee_ok w && folium w)); [by eexists|].
  destruct (get_latest_s2_image _ _ _) as [img|]; [|by eexists].
  destruct (getMapId _ _ _) as [url|]; [|by eexists].
  destruct (Hfail (NormalizedDifference img ["B8"; "B4"] "NDVI")
                  (GeomPoint lon lat)) as [ex ->].
  by eexists.
Qed.

Lemma get_true_color_map_total (w : world) (e : env) (lat lon : float) :
  ∃ html, get_true_color_map w e lat lon = Py.Ok html.
Proof.
  unfold get_true_color_map.
  destruct (negb (ee_ok w && folium w)); [by eexists|].
  destruct (get_latest_s2_image _ _ _); [|by eexists].
  destruct (getMapId _ _ _); by eexists.
Qed.

Lemma get_polygon_ndvi_stats_uninitialised (w : world) (e : env) (coords : json) :
  ee_ok w = false → get_polygon_ndvi_stats w e coords = Py.Ok JNull.
Proof. unfold get_polygon_ndvi_stats. by intros ->. Qed.

(** With Earth Engine initialised, an exception of the statistics call
    leaves [get_polygon_ndvi_stats]: nothing catches it. *)
Lemma get_polygon_ndvi_stats_propagates (w : world) (e : env)
    (ring : list json) (ex : Py.exn) :
  ee_ok w = true →
  (∀ c, c ∈ ring → ∃ lat lon, c = JArr [lat; lon]) →
  (∀ img g, reduce_stats e img g = Py.Raise ex) →
  get_polygon_ndvi_stats w e (JArr ring) = Py.Raise ex.
Proof.
  intros Hok Hring Hfail. unfold get_polygon_ndvi_stats, get_latest_s2_image.
  rewrite Hok. simpl.
  assert (∃ ee_coords,
            mapM (λ c, p ← py_unpack2 c; mret (p.2, p.1)) ring
            = Py.Ok ee_coords) as [ee_coords ->].
  { induction ring as [|c ring IH]; [by eexists|].
    destruct (Hring c) as (lat & lon & ->); [left|].
    destruct IH as [rest Hrest]; [intros c Hc; apply Hring; by right|].
    simpl. rewrite Hrest. by eexists. }
  simpl. by rewrite Hfail.
Qed.

End Adapters.

(** ** The model on concrete requests *)

#[local] Existing Instance Demo.cpython.
#[local] Existing Instance Demo.plain_hash.
#[local] Existing Instance Demo.rational_floats.

Example strip_examples :
  Py.strip "  admin  " = "admin" ∧ Py.strip "a b" = "a b" ∧ Py.strip "   " = "".
Proof. by repeat split. Qed.

Example int_examples :
  Py.int " 12 " = Py.Ok 12 ∧ Py.int "1_000" = Py.Ok 1000 ∧ Py.int "-7" = Py.Ok (-7)
  ∧ Py.raises (Py.int "1__0") ∧ Py.raises (Py.int "5_") ∧ Py.raises (Py.int "")
  ∧ Py.raises (Py.int "admin").
Proof. repeat split; by eexists. Qed.

(** [int()] does not skip the separators 28-31 that [strip()] removes, it
    does skip a no-break space, and it refuses a literal of more digits
    than the limit. *)
Example int_whitespace_and_limit :
  Py.strip (String (ascii_of_nat 28) "1") = "1"
  ∧ Py.raises (Py.int (String (ascii_of_nat 28) "1"))
  ∧ Py.raises (Py.int (String "1"%char (String (ascii_of_nat 31) "")))
  ∧ Py.int (String (ascii_of_nat 160) " 7 ") = Py.Ok 7
  ∧ Py.int (Samples.zeros_one 4299) = Py.Ok 1
  ∧ Py.raises (Py.int (Samples.zeros_one 4300))
  ∧ load_user [Demo.alice; Demo.bob] (String (ascii_of_nat 28) "1") = Py.Ok None
  ∧ load_user [Demo.alice; Demo.bob] (Samples.zeros_one 4300) = Py.Ok None
  ∧ load_user [Demo.alice; Demo.bob] "01" = Py.Ok (Some Demo.alice).
Proof. repeat split; try reflexivity; eexists; vm_compute; reflexivity. Qed.

Example isoformat_example : isoformat Demo.noon = "2024-03-09T12:00:00".
Proof. reflexivity. Qed.

(** A run that registers two names, logs the second in and visits the
    admin dashboard: the farmer named "admin" is served. *)
Example farmer_named_admin_sees_dashboard :
  let e := Demo.offline None in
  let trace := [(e, ReqRegister POST (Demo.creds "carol" "pw1"));
                (e, ReqAdminLogin POST (Demo.creds "admin" "admin123"));
                (e, ReqRegister POST (Demo.creds "admin" "pw2"));
                (e, ReqLogin POST (Demo.creds "admin" "pw2"))] in
  let w := run trace (initial_world Demo.ee_missing) in
  (username <$> users (db w)) = ["carol"; "admin"]
  ∧ session_user_id w = Some "2"
  ∧ status_code (reply (serve e ReqAdminDashboard w)) = 200.
Proof. repeat split; reflexivity. Qed.

(** After the admin login alone the dashboard request is turned away. *)
Example admin_session_is_anonymous :
  let e := Demo.offline None in
  let w := run [(e, ReqAdminLogin POST (Demo.creds "admin" "admin123"))]
               (initial_world Demo.ee_missing) in
  session_user_id w = Some "admin"
  ∧ serve e ReqAdminDashboard w = unauthorized w.
Proof. repeat split; reflexivity. Qed.

(** C9. With Earth Engine initialised and the provider unreachable,
    [get_polygon_ndvi_stats] on a triangle raises the provider's error
    instead of returning null, and the route answers 500; on the same
    state [get_point_ndvi] and [get_true_color_map] degrade to a null value
    and placeholder fragments. *)
Theorem polygon_stats_provider_failure :
  ee_ok Demo.alice_online = true
  ∧ get_polygon_ndvi_stats Demo.alice_online (Demo.offline None) Demo.triangle
    = Py.Raise (Py.UpstreamError "network unreachable")
  ∧ reply (serve (Demo.offline None)
                 (ReqPolygonNdvi (Some (JObj [("coords", Demo.triangle)])))
                 Demo.alice_online)
    = ErrorPage 500
  ∧ get_point_ndvi Demo.alice_online (Demo.offline None) default_lat default_lon
    = Py.Ok (JNull, "<p>NDVI map error.</p>")
  ∧ get_true_color_map Demo.alice_online (Demo.offline None) default_lat default_lon
    = Py.Ok "<p>True color map error.</p>".
Proof. repeat split; reflexivity. Qed.

(** *** Instances of the theorems *)

Lemma load_user_spec_witness :
  NoDup (user_id <$> [Demo.alice; Demo.bob])
  ∧ load_user [Demo.alice; Demo.bob] " 2 " = Py.Ok (Some Demo.bob).
Proof.
  assert (NoDup (user_id <$> [Demo.alice; Demo.bob])) as Hnd by compute_done.
  split; [exact Hnd|].
  apply (load_user_spec [Demo.alice; Demo.bob] " 2 " Hnd).
  split; [by repeat constructor | reflexivity].
Defined.

Lemma login_spec_witness :
  NoDup (username <$> users (db Demo.two_farmers))
  ∧ login POST (Demo.creds " alice " "wonder") Demo.two_farmers
    = {| reply := Redirect "farmer_dashboard"; flashed := [];
         after := set_session Demo.two_farmers (Some "1") |}.
Proof.
  assert (NoDup (username <$> users (db Demo.two_farmers))) as Hnd
    by compute_done.
  split; [exact Hnd|].
  pose proof (login_spec (Demo.creds " alice " "wonder") Demo.two_farmers Hnd)
    as (_ & Hrow & _).
  apply (Hrow Demo.alice); [by repeat constructor | reflexivity ..].
Defined.

Lemma iot_upload_persists_witness :
  assoc "api_key" Demo.good_upload = Some (JStr IOT_API_KEY)
  ∧ commit_error (Demo.offline None) = None
  ∧ serve (Demo.offline None) (ReqIotUpload (Some (JObj Demo.good_upload)))
          Demo.two_farmers
    = {| reply := Jsonify (JObj [("ok", JBool true); ("id", JInt 1)]) 200;
         flashed := [];
         after := set_readings Demo.two_farmers
                    [{| reading_id := 1; timestamp := Demo.noon;
                        cap_soil_pct := Some (QArith_base.Qmake 41 1);
                        res_soil_pct := Some fzero; rain_pct := Some fzero;
                        water_level_pct := Some fzero;
                        temperature_c := Some (QArith_base.Qmake 23 1);
                        humidity_pct := Some fzero |}] |}.
Proof.
  split; [reflexivity|]. split; [reflexivity|].
  apply (iot_upload_persists (Demo.offline None) Demo.good_upload
           Demo.two_farmers
           (QArith_base.Qmake 41 1) fzero fzero fzero (QArith_base.Qmake 23 1)
           fzero);
    reflexivity.
Defined.


(** *** Inputs that separate the code from the wording of the specification *)

(** C1: the admin pair logs in as a farmer once the name "admin" has been
    registered with that password, and a padded username is accepted
    although no row has the padded name. *)
Lemma login_admin_pair_succeeds :
  Forall (λ u, role u = "farmer") (users (db Demo.after_admin_signup))
  ∧ reply (login POST (Demo.creds ADMIN_USERNAME ADMIN_PASSWORD)
                 Demo.after_admin_signup)
    = Redirect "farmer_dashboard"
  ∧ Forall (λ u, username u ≠ " alice") (users (db Demo.two_farmers))
  ∧ reply (login POST (Demo.creds " alice" "wonder") Demo.two_farmers)
    = Redirect "farmer_dashboard".
Proof.
  split; [by repeat constructor|]. split; [reflexivity|].
  split; [by repeat constructor | reflexivity].
Qed.

(** C2: a padded admin name is not the fixed pair, yet it is accepted. *)
Lemma admin_login_accepts_padded_name :
  ("admin ", "admin123") ≠ (ADMIN_USERNAME, ADMIN_PASSWORD)
  ∧ reply (admin_login POST (Demo.creds "admin " "admin123") Demo.two_farmers)
    = Redirect "admin_dashboard"
  ∧ session_user_id
      (after (admin_login POST (Demo.creds "admin " "admin123") Demo.two_farmers))
    = Some "admin".
Proof. by repeat split. Qed.


(** C6: the empty object has no [api_key], and the answer is 400, not
    403. *)
Lemma iot_upload_empty_object :
  assoc "api_key" [] ≠ Some (JStr IOT_API_KEY)
  ∧ reply (serve (Demo.offline None) (ReqIotUpload (Some (JObj [])))
                 Demo.two_farmers)
    = Jsonify (JObj [("ok", JBool false); ("error", JStr "no json")]) 400
  ∧ status_code (reply (serve (Demo.offline None) (ReqIotUpload (Some (JObj [])))
                              Demo.two_farmers)) ≠ 403.
Proof. by repeat split. Qed.

(** The secret is right and the store is healthy, but a field that is a
    list does not convert: status 500 and no reading stored. *)
Lemma iot_upload_unconvertible_field :
  assoc "api_key" Demo.list_upload = Some (JStr IOT_API_KEY)
  ∧ commit_error (Demo.offline None) = None
  ∧ status_code (reply (serve (Demo.offline None)
                              (ReqIotUpload (Some (JObj Demo.list_upload)))
                              Demo.two_farmers)) = 500
  ∧ readings (db (after (serve (Demo.offline None)
                               (ReqIotUpload (Some (JObj Demo.list_upload)))
                               Demo.two_farmers))) = [].
Proof. by repeat split. Qed.

(** ** The Python fragment: stripping and integer literals *)

Section PyFacts.

Lemma lstrip_head (s : string) (c : ascii) (r : string) :
  Py.lstrip s = String c r → Py.isspace c = false.
Proof.
  induction s as [|c' s IH]; simpl; [done|].
  destruct (Py.isspace c') eqn:Hc'; [done|]. by intros [= <- _].
Qed.

Lemma rstrip_keeps_head (c : ascii) (s : string) :
  Py.isspace c = false → ∃ r, Py.rstrip (String c s) = String c r.
Proof.
  intros Hc. simpl. destruct (Py.rstrip s); [|by eexists].
  rewrite Hc. by eexists.
Qed.

Lemma rstrip_idemp (s : string) : Py.rstrip (Py.rstrip s) = Py.rstrip s.
Proof.
  induction s as [|c s IH]; [done|]. simpl.
  destruct (Py.rstrip s) as [|c' r] eqn:Hr.
  - destruct (Py.isspace c) eqn:Hc; [done|]. simpl. by rewrite Hc.
  - change (Py.rstrip (String c (String c' r))) with
      (match Py.rstrip (String c' r) with
       | EmptyString => if Py.isspace c then EmptyString else String c EmptyString
       | r' => String c r'
       end).
    by rewrite IH.
Qed.

(** Stripping twice is stripping once. *)
Lemma strip_idemp (s : string) : Py.strip (Py.strip s) = Py.strip s.
Proof.
  unfold Py.strip. destruct (Py.lstrip s) as [|c r] eqn:Hl; [done|].
  pose proof (lstrip_head _ _ _ Hl) as Hc.
  destruct (rstrip_keeps_head c r Hc) as [r' Hr]. rewrite Hr.
  simpl Py.lstrip. rewrite Hc, <- Hr. apply rstrip_idemp.
Qed.

Context {interp : Py.runtime}.

Lemma digit_not_int_space (c : ascii) :
  Py.is_digit c = true → Py.int_isspace c = false.
Proof.
  unfold Py.is_digit, Py.int_isspace. intros Hd.
  apply andb_true_iff in Hd as [?%Z.leb_le ?%Z.leb_le].
  repeat (apply orb_false_iff; split);
    rewrite ?andb_false_iff, ?Z.leb_gt, ?Z.eqb_neq; lia.
Qed.

Lemma digits_only_skip (s : string) :
  digits_only s = true → Py.int_rskip (Py.int_lskip s) = s.
Proof.
  intros Hs.
  assert (Py.int_lskip s = s) as ->.
  { destruct s as [|c s]; [done|]. simpl in *.
    apply andb_true_iff in Hs as [Hc _]. by rewrite (digit_not_int_space c Hc). }
  induction s as [|c s IH]; [done|]. simpl in *.
  apply andb_true_iff in Hs as [Hc Hs]. rewrite (IH Hs).
  destruct s; [|done]. by rewrite (digit_not_int_space c Hc).
Qed.

Lemma pretty_N_char_digit (d : N) :
  (d < 10)%N →
  Py.is_digit (pretty_N_char d) = true
  ∧ Py.digit_val (pretty_N_char d) = Z.of_N d.
Proof.
  intros Hd.
  assert (d = 0 ∨ d = 1 ∨ d = 2 ∨ d = 3 ∨ d = 4 ∨ d = 5 ∨ d = 6 ∨ d = 7
          ∨ d = 8 ∨ d = 9)%N as Hcases by lia.
  repeat (destruct Hcases as [->|Hcases]; [done|]). by subst.
Qed.

Lemma pretty_N_go_digits (x : N) (s : string) :
  digits_only s = true → digits_only (pretty_N_go x s) = true.
Proof.
  revert s. induction (N.lt_wf_0 x) as [x _ IH]; intros s Hs.
  assert (x = 0 ∨ 0 < x)%N as [->|Hx] by lia; [done|].
  rewrite pretty_N_go_step by done. apply IH; [by apply N.div_lt|].
  simpl. rewrite Hs, andb_true_r.
  apply pretty_N_char_digit. by apply N.mod_lt.
Qed.

(** A number below [10 ^ k] is printed with at most [k] digits. *)
Lemma pretty_N_go_count (k : nat) (x : N) (s : string) :
  (x < 10 ^ N.of_nat k)%N →
  (Py.digit_count (pretty_N_go x s) ≤ k + Py.digit_count s)%nat.
Proof.
  revert x s. induction k as [|k IH]; intros x s Hx.
  - assert (x = 0%N) as -> by (simpl in Hx; lia). by rewrite pretty_N_go_0.
  - destruct (N.eq_0_gt_0_cases x) as [->|Hpos].
    { rewrite pretty_N_go_0. lia. }
    rewrite pretty_N_go_step by done.
    rewrite Nat2N.inj_succ, N.pow_succ_r' in Hx.
    etrans; [apply IH; by apply N.Div0.div_lt_upper_bound|].
    simpl. destruct (Py.is_digit _); lia.
Qed.

(** Reading the digits that [pretty_N_go] puts in front of [s] multiplies
    the accumulator by a power of ten and adds the number. *)
Lemma int_digits_pretty_N_go (x : N) (s : string) :
  (0 < x)%N →
  ∃ m, ∀ acc seen,
    Py.int_digits (pretty_N_go x s) acc seen
    = Py.int_digits s (acc * m + Z.of_N x) true.
Proof.
  revert s. induction (N.lt_wf_0 x) as [x _ IH]; intros s Hx.
  rewrite pretty_N_go_step by done.
  destruct (pretty_N_char_digit (x `mod` 10)%N) as [Hdig Hval];
    [by apply N.mod_lt|].
  assert (Z.of_N x = 10 * Z.of_N (x `div` 10) + Z.of_N (x `mod` 10)) as Hx10.
  { pose proof (N.div_mod x 10 ltac:(done)) as Hdm.
    rewrite Hdm at 1. rewrite N2Z.inj_add, N2Z.inj_mul. done. }
  destruct (N.eq_0_gt_0_cases (x `div` 10)) as [Hq|Hq].
  - exists 10. intros acc seen. rewrite Hq, pretty_N_go_0. simpl.
    rewrite Hdig, Hval. f_equal. rewrite Hx10, Hq. lia.
  - destruct (IH (x `div` 10)%N (N.div_lt x 10 Hx eq_refl)
                (String (pretty_N_char (x `mod` 10)) s) Hq) as [m Hm].
    exists (10 * m). intros acc seen. rewrite Hm. simpl.
    rewrite Hdig, Hval. f_equal. rewrite Hx10. lia.
Qed.

Lemma pretty_N_digits (x : N) :
  (x < 10 ^ 19)%N →
  digits_only (pretty x) = true
  ∧ Py.int_digits (pretty x) 0 false = Some (Z.of_N x)
  ∧ (Py.digit_count (pretty x) ≤ 19)%nat.
Proof.
  intros Hx. unfold pretty, pretty_N. case_decide as Hx0.
  { subst. repeat split. simpl. lia. }
  split; [by apply pretty_N_go_digits|]. split.
  - destruct (int_digits_pretty_N_go x "") as [m Hm]; [lia|].
    rewrite Hm. simpl. f_equal; lia.
  - pose proof (pretty_N_go_count 19 x "" Hx) as Hcount. simpl in Hcount. lia.
Qed.

(** The digit limit is never in the way of a literal of at most 640
    digits. *)
Lemma within_limit (n : nat) :
  (n ≤ 640)%nat →
  Nat.ltb 0 Py.int_max_str_digits && Nat.ltb Py.int_max_str_digits n = false.
Proof.
  intros Hn. destruct Py.int_max_str_digits_ok as [->|Hmax]; [done|].
  apply andb_false_iff. right. apply Nat.ltb_ge. lia.
Qed.

Lemma int_of_digits (s : string) :
  digits_only s = true → (Py.digit_count s ≤ 640)%nat →
  Py.int s = match Py.int_digits s 0 false with
             | Some n => Py.Ok n
             | None => Py.Raise (Py.ValueError
                         ("invalid literal for int() with base 10: " +:+ s))
             end.
Proof.
  intros Hs Hcount. unfold Py.int. rewrite (digits_only_skip s Hs).
  rewrite (within_limit _ Hcount).
  destruct s as [|c r]; [done|]. simpl in Hs.
  apply andb_true_iff in Hs as [Hc _].
  destruct c as [[] [] [] [] [] [] [] []]; try discriminate Hc; reflexivity.
Qed.

(** [int(str(n)) == n] for every [n] in the range of a 64-bit key. *)
Lemma int_str_int (n : Z) :
  Z.abs n < 2 ^ 63 → Py.int (Py.str_int n) = Py.Ok n.
Proof.
  intros Hn. unfold Py.str_int, pretty, pretty_Z.
  destruct n as [|p|p].
  - rewrite (int_of_digits "0"); [done | done | simpl; lia].
  - destruct (pretty_N_digits (N.pos p)) as (Hd & Hv & Hc); [lia|].
    change (pretty p) with (pretty (N.pos p)).
    rewrite int_of_digits, Hv by (done || lia). done.
  - destruct (pretty_N_digits (N.pos p)) as (Hd & Hv & Hc); [lia|].
    change (pretty p) with (pretty (N.pos p)).
    unfold Py.int.
    assert (Py.int_rskip (Py.int_lskip ("-" +:+ pretty (N.pos p)))
            = "-" +:+ pretty (N.pos p)) as ->.
    { change ("-" +:+ pretty (N.pos p))
        with (String "-"%char (pretty (N.pos p))).
      simpl Py.int_lskip.
      pose proof (digits_only_skip _ Hd) as Hskip.
      assert (Py.int_lskip (pretty (N.pos p)) = pretty (N.pos p)) as Hl.
      { destruct (pretty (N.pos p)) as [|c r]; [done|]. simpl in *.
        apply andb_true_iff in Hd as [Hc' _].
        by rewrite (digit_not_int_space c Hc'). }
      rewrite Hl in Hskip. simpl. rewrite Hskip.
      by destruct (pretty (N.pos p)). }
    change ("-" +:+ pretty (N.pos p)) with (String "-"%char (pretty (N.pos p))).
    cbv iota beta. rewrite Hv. simpl Py.digit_count.
    rewrite within_limit by lia. done.
Qed.

End PyFacts.

(** ** Runs of the server *)

Section RunFacts.
Context {interp : Py.runtime} {hashing : PasswordHash} {floats : PyFloat}.

Lemma foldr_max_ge (ids : list Z) (x : Z) :
  x ∈ ids → x ≤ foldr Z.max 0 ids.
Proof. induction 1; simpl; lia. Qed.

Lemma foldr_max_le (ids : list Z) (b : Z) :
  0 ≤ b → (∀ x, x ∈ ids → x ≤ b) → foldr Z.max 0 ids ≤ b.
Proof.
  intros Hb. induction ids as [|x ids IH]; intros Hall; simpl; [done|].
  apply Z.max_lub; [apply Hall; left|]. apply IH. intros y Hy. apply Hall.
  by right.
Qed.

(** Keys that count up from 1 continue with the length plus one. *)
Lemma next_id_consecutive (ids : list Z) :
  (∀ i x, ids !! i = Some x → x = Z.of_nat i + 1) →
  next_id ids = Z.of_nat (length ids) + 1.
Proof.
  intros Hids. unfold next_id.
  assert (foldr Z.max 0 ids ≤ Z.of_nat (length ids)) as Hle.
  { apply foldr_max_le; [lia|]. intros x (i & Hi)%list_elem_of_lookup.
    pose proof (lookup_lt_Some _ _ _ Hi). rewrite (Hids i x Hi). lia. }
  destruct (decide (ids = [])) as [->|Hne]; [done|].
  assert (Z.of_nat (length ids) ∈ ids) as Hin.
  { destruct (length ids) as [|n] eqn:Hlen; [by destruct ids|].
    destruct (lookup_lt_is_Some_2 ids n) as [x Hx]; [lia|].
    rewrite (Hids n x Hx) in Hx. apply list_elem_of_lookup. exists n.
    rewrite Hx. f_equal. lia. }
  apply foldr_max_ge in Hin. lia.
Qed.

Lemma set_session_step (e : env) (w : world) (sid : option string) :
  step_ok e w (set_session w sid).
Proof. repeat split; by left. Qed.

Lemma same_step (e : env) (w : world) : step_ok e w w.
Proof. repeat split; by left. Qed.

Lemma login_step (e : env) (m : method) (form : list (string * string))
    (w : world) : step_ok e w (after (login m form w)).
Proof.
  unfold login. destruct m; [apply same_step|].
  destruct (filter_by_username _ _) as [u|]; [|apply same_step].
  destruct (_ && _); [apply set_session_step | apply same_step].
Qed.

Lemma admin_login_step (e : env) (m : method) (form : list (string * string))
    (w : world) : step_ok e w (after (admin_login m form w)).
Proof.
  unfold admin_login. destruct m; [apply same_step|].
  destruct (_ && _); [apply set_session_step | apply same_step].
Qed.

Lemma register_step (e : env) (m : method) (form : list (string * string))
    (w : world) : step_ok e w (after (register e m form w)).
Proof.
  unfold register. destruct m; [apply same_step|].
  destruct (filter_by_username _ _) as [u|] eqn:Hfind; [apply same_step|].
  destruct (_ || _) eqn:Hempty; [apply same_step|].
  apply orb_false_iff in Hempty as [Hname%String.eqb_neq _].
  split; [done|]. split; [done|]. split; [|by left].
  right. eexists. split; [reflexivity|]. unfold new_user_row. simpl.
  split; [done|]. split; [done|]. split; [apply strip_idemp|].
  split; [|done]. intros u Hu.
  by apply (proj1 (first_by_key_None username _ _) Hfind).
Qed.

Lemma api_iot_upload_step (e : env) (body : option json) (w : world)
    (o : outcome) :
  api_iot_upload e body w = Py.Ok o → step_ok e w (after o).
Proof.
  unfold api_iot_upload. intros H.
  apply bind_Ok_inv in H as (data & _ & H).
  destruct (negb (truthy data)); [injection H as <-; apply same_step|].
  apply bind_Ok_inv in H as (key & _ & H).
  destruct (py_ne_str key IOT_API_KEY); [injection H as <-; apply same_step|].
  apply try_except_Ok_inv in H as [H|(ex & _ & H)];
    [|injection H as <-; apply same_step].
  apply save_reading_inv in H as (_ & rd & _ & _ & _ & _ & _ & _ & Hid & Hts & ->).
  split; [done|]. split; [done|]. split; [by left|]. right. by exists rd.
Qed.

(** Every request is such a step. *)
Lemma serve_step (e : env) (r : request) (w : world) :
  step_ok e w (after (serve e r w)).
Proof.
  unfold serve. destruct (dispatch e r w) as [o|ex] eqn:Hd;
    [|destruct ex; apply same_step].
  unfold dispatch in Hd. destruct (current_user_total w) as [cu Hcu].
  rewrite Hcu in Hd. simpl in Hd. destruct r.
  - rewrite (home_after _ _ _ Hd). apply same_step.
  - injection Hd as <-. apply login_step.
  - injection Hd as <-. apply register_step.
  - injection Hd as <-. apply admin_login_step.
  - apply login_required_inv in Hd as [[_ ->]|[_ Hd]]; [apply same_step|].
    injection Hd as <-. apply set_session_step.
  - apply login_required_inv in Hd as [[_ ->]|[_ Hd]]; [apply same_step|].
    injection Hd as <-. apply same_step.
  - apply login_required_inv in Hd as [[_ ->]|[_ Hd]]; [apply same_step|].
    rewrite (admin_dashboard_view_after _ _ _ Hd). apply same_step.
  - apply login_required_inv in Hd as [[_ ->]|[_ Hd]]; [apply same_step|].
    rewrite (api_point_ndvi_view_after _ _ _ _ _ Hd). apply same_step.
  - apply login_required_inv in Hd as [[_ ->]|[_ Hd]]; [apply same_step|].
    rewrite (api_polygon_ndvi_view_after _ _ _ _ _ Hd). apply same_step.
  - by apply api_iot_upload_step in Hd.
  - apply login_required_inv in Hd as [[_ ->]|[_ Hd]]; [apply same_step|].
    rewrite (api_latest_iot_view_after _ _ _ Hd). apply same_step.
Qed.

Lemma step_store_ok (e : env) (w w' : world) :
  step_ok e w w' → store_ok w → store_ok w'.
Proof.
  intros (Hfol & Hee & Husers & Hreadings) (Hrows & Hnames & Hrds & Hflags).
  split; [|split; [|split]].
  - destruct Husers as [->|(row & -> & Hfarmer & Hne & Hstrip & _ & Hid)];
      [done|].
    intros i u Hi. apply lookup_app_Some in Hi as [Hi|[Hlen Hi]];
      [by apply Hrows|].
    apply list_lookup_singleton_Some in Hi as [Hi0 <-].
    split; [|done]. rewrite Hid, next_id_consecutive.
    + rewrite length_fmap. lia.
    + intros j x Hj. apply list_lookup_fmap_Some in Hj as (u & -> & Hu).
      by apply Hrows.
  - destruct Husers as [->|(row & -> & _ & _ & _ & Hfresh & _)]; [done|].
    rewrite fmap_app. apply NoDup_app. split; [done|]. split.
    + intros name (u & -> & Hu)%list_elem_of_fmap Hrow. simpl in Hrow.
      apply list_elem_of_singleton in Hrow. by destruct (Hfresh u Hu).
    + simpl. apply NoDup_singleton.
  - destruct Hreadings as [->|(rd & -> & Hid & _)]; [done|].
    intros i x Hi. apply lookup_app_Some in Hi as [Hi|[Hlen Hi]];
      [by apply Hrds|].
    apply list_lookup_singleton_Some in Hi as [Hi0 <-].
    rewrite Hid, next_id_consecutive.
    + rewrite length_fmap. lia.
    + intros j y Hj. apply list_lookup_fmap_Some in Hj as (r' & -> & Hr').
      by apply Hrds.
  - rewrite Hfol, Hee. done.
Qed.

Lemma initial_store_ok (s : startup) : store_ok (initial_world s).
Proof.
  split; [done|]. split; [constructor|]. split; [done|].
  simpl. unfold init_ee. by destruct (libs_imported s).
Qed.

Lemma reachable_store_ok (w : world) : reachable w → store_ok w.
Proof.
  intros (s & trace & ->).
  assert (∀ w0, store_ok w0 → store_ok (run trace w0)) as Hrun.
  { induction trace as [|[e r] trace IH]; intros w0 Hw0; [done|].
    simpl. apply IH. eapply step_store_ok; [apply serve_step | done]. }
  apply Hrun, initial_store_ok.
Qed.

End RunFacts.

(** ** Properties of the stored tables *)

Section Tables.
Context {interp : Py.runtime} {hashing : PasswordHash} {floats : PyFloat}.

Lemma consecutive_keys_NoDup {A} (key : A → Z) (tbl : list A) :
  (∀ i x, tbl !! i = Some x → key x = Z.of_nat i + 1) → NoDup (key <$> tbl).
Proof.
  intros Hkeys. apply NoDup_alt. intros i j k Hi Hj.
  apply list_lookup_fmap_Some in Hi as (x & -> & Hx).
  apply list_lookup_fmap_Some in Hj as (y & Hxy & Hy).
  rewrite (Hkeys i x Hx), (Hkeys j y Hy) in Hxy. lia.
Qed.

(** X1. In every reachable state the usernames are pairwise distinct,
    none is empty, each is its own stripped form, and the ids count up
    from 1 in the order of registration (so they are distinct too). *)
Theorem reachable_users (w : world) :
  reachable w →
  NoDup (username <$> users (db w))
  ∧ NoDup (user_id <$> users (db w))
  ∧ (∀ i u, users (db w) !! i = Some u → user_id u = Z.of_nat i + 1)
  ∧ (∀ u, u ∈ users (db w) →
          username u ≠ "" ∧ Py.strip (username u) = username u).
Proof.
  intros (Hrows & Hnames & _ & _)%reachable_store_ok.
  split; [done|]. split; [|split].
  - apply consecutive_keys_NoDup. intros i u Hu. by apply Hrows.
  - intros i u Hu. by apply Hrows.
  - intros u (i & Hu)%list_elem_of_lookup. by destruct (Hrows i u Hu) as (_ & _ & ?).
Qed.

(** X2. In every reachable state the ids of the readings count up from 1
    in the order of insertion, so they are pairwise distinct. *)
Theorem reachable_readings (w : world) :
  reachable w →
  (∀ i rd, readings (db w) !! i = Some rd → reading_id rd = Z.of_nat i + 1)
  ∧ NoDup (reading_id <$> readings (db w)).
Proof.
  intros (_ & _ & Hrds & _)%reachable_store_ok.
  split; [done|]. by apply consecutive_keys_NoDup.
Qed.

Lemma step_prefix (e : env) (w w' : world) :
  step_ok e w w' →
  users (db w) `prefix_of` users (db w')
  ∧ readings (db w) `prefix_of` readings (db w').
Proof.
  intros (_ & _ & Husers & Hreadings). split.
  - destruct Husers as [->|(row & -> & _)]; [done | by apply prefix_app_r].
  - destruct Hreadings as [->|(rd & -> & _)]; [done | by apply prefix_app_r].
Qed.

(** X3. The store is append-only: whatever the requests, the rows present
    before a run are still there after it, unchanged and in the same
    positions, in both tables. *)
Theorem store_append_only (trace : list (env * request)) (w : world) :
  users (db w) `prefix_of` users (db (run trace w))
  ∧ readings (db w) `prefix_of` readings (db (run trace w)).
Proof.
  revert w. induction trace as [|[e r] trace IH]; intros w; [done|].
  simpl. destruct (IH (after (serve e r w))) as [Hu Hr].
  destruct (step_prefix e w _ (serve_step e r w)) as [Hu0 Hr0].
  split; by etrans.
Qed.

(** X4. The two start-up values never change during a run, and Earth
    Engine counts as initialised only when folium was imported: in a
    reachable state the test [ee_ok and folium] is the test [ee_ok]. *)
Theorem startup_flags_fixed (s : startup) (trace : list (env * request)) :
  let w := run trace (initial_world s) in
  ee_ok w = init_ee s
  ∧ folium w = libs_imported s
  ∧ ee_ok w && folium w = ee_ok w.
Proof.
  assert (∀ w0, ee_ok (run trace w0) = ee_ok w0
                ∧ folium (run trace w0) = folium w0) as Hrun.
  { induction trace as [|[e r] trace IH]; intros w0; [done|].
    simpl. destruct (IH (after (serve e r w0))) as [-> ->].
    by destruct (serve_step e r w0) as (-> & -> & _). }
  intros w. subst w. destruct (Hrun (initial_world s)) as [-> ->]. simpl.
  split; [done|]. split; [done|].
  unfold init_ee. by destruct (libs_imported s), (initialize s),
    (authenticate_initialize s).
Qed.

End Tables.

(** ** Properties of sessions *)

Section Sessions.
Context {interp : Py.runtime} {hashing : PasswordHash} {floats : PyFloat}.

(** At the start of a request [current_user] is the anonymous user or a
    row of the table; it is never the [FakeAdmin] object. *)
Lemma current_user_inv (w : world) (cu : principal) :
  current_user w = Py.Ok cu →
  cu = AnonymousUser ∨ ∃ u, cu = DbUser u ∧ u ∈ users (db w).
Proof.
  unfold current_user. destruct (session_user_id w) as [uid|];
    [|intros [= <-]; by left].
  rewrite load_user_eval. simpl. intros [= <-].
  destruct (Py.int uid) as [n|]; [|by left].
  destruct (query_get (users (db w)) n) as [u|] eqn:Hq; [|by left].
  right. exists u. split; [done|]. by apply first_by_key_Some in Hq as [? _].
Qed.

Lemma current_user_of_row (w : world) (u : User) :
  NoDup (user_id <$> users (db w)) → u ∈ users (db w) →
  Z.abs (user_id u) < 2 ^ 63 →
  current_user (set_session w (Some (Py.str_int (user_id u))))
  = Py.Ok (DbUser u).
Proof.
  intros Hnd Hu Hrange. unfold current_user. simpl. rewrite load_user_eval.
  rewrite int_str_int by done. simpl.
  by rewrite (proj2 (query_get_Some _ _ _ Hnd) (conj Hu eq_refl)).
Qed.

Lemma protected_dispatch (e : env) (r : request) (cu : principal) (w : world) :
  protected r = true →
  ∃ view, (cu' ← Py.Ok cu;
           match r with
           | ReqHome => home cu' w
           | ReqLogin m form => mret (login m form w)
           | ReqRegister m form => mret (register e m form w)
           | ReqAdminLogin m form => mret (admin_login m form w)
           | ReqLogout => logout cu' w
           | ReqFarmerDashboard => farmer_dashboard cu' w
           | ReqAdminDashboard => admin_dashboard cu' w
           | ReqPointNdvi body => api_point_ndvi e body cu' w
           | ReqPolygonNdvi body => api_polygon_ndvi e body cu' w
           | ReqIotUpload body => api_iot_upload e body w
           | ReqLatestIot => api_latest_iot cu' w
           end) = login_required view cu w.
Proof. destruct r; try done; intros _; by eexists. Qed.

(** X5. In a reachable state whose ids are in the range of the store's
    64-bit key, a successful farmer login is remembered: the id put in the
    session loads, at the next request, the very row whose username was
    submitted. *)
Theorem login_then_current_user (form : list (string * string)) (w : world) :
  reachable w →
  (∀ u, u ∈ users (db w) → user_id u < 2 ^ 63) →
  reply (login POST form w) = Redirect "farmer_dashboard" →
  ∃ u, u ∈ users (db w)
       ∧ username u = Py.strip (form_get form "username" "")
       ∧ current_user (after (login POST form w)) = Py.Ok (DbUser u).
Proof.
  intros (Hrows & _)%reachable_store_ok Hrange.
  unfold login, filter_by_username.
  destruct (head _) as [u|] eqn:Hfind; [|done].
  apply first_by_key_Some in Hfind as [Hu Hname].
  destruct (_ && _); [|done]. intros _. exists u. split; [done|].
  split; [done|]. simpl. apply current_user_of_row; [|done|].
  - apply consecutive_keys_NoDup. intros i x Hx. by apply Hrows.
  - pose proof (Hrange u Hu). apply list_elem_of_lookup in Hu as [i Hi].
    destruct (Hrows i u Hi) as (Hid & _). lia.
Qed.

(** X6. Whoever registers can log in at once with the same form: after a
    registration that succeeded, the login succeeds and the session holds
    the id of the new row. *)
Theorem register_then_login (e : env) (form : list (string * string))
    (w : world) :
  reply (register e POST form w) = Redirect "login" →
  let w' := after (register e POST form w) in
  reply (login POST form w') = Redirect "farmer_dashboard"
  ∧ session_user_id (after (login POST form w'))
    = Some (Py.str_int (next_id (user_id <$> users (db w)))).
Proof.
  unfold register, login, filter_by_username.
  destruct (head (filter _ (users (db w)))) as [u|] eqn:Hfind; [done|].
  destruct (_ || _); [done|]. intros _. simpl.
  rewrite filter_app, filter_cons, decide_True by done.
  assert (filter (λ u, username u = Py.strip (form_get form "username" ""))
                 (users (db w)) = []) as ->.
  { by destruct (filter _ (users (db w))). }
  simpl. rewrite check_generate. done.
Qed.

Lemma serve_anonymous (e : env) (r : request) (w : world) :
  protected r = true →
  current_user w = Py.Ok AnonymousUser →
  serve e r w = unauthorized w.
Proof.
  intros Hr Hcu. unfold serve, dispatch. rewrite Hcu.
  destruct (protected_dispatch e r AnonymousUser w Hr) as [view ->].
  reflexivity.
Qed.

(** X7. With no loadable user in the session every route under
    [@login_required] (logout, both dashboards, the two NDVI endpoints,
    the latest reading) answers with the redirect to the login page and
    leaves the state alone; no provider is called. *)
Theorem anonymous_is_turned_away (e : env) (r : request) (w : world) :
  protected r = true →
  current_user w = Py.Ok AnonymousUser →
  serve e r w = unauthorized w.
Proof. apply serve_anonymous. Qed.

(** X8. A successful admin login opens no protected route: the id "admin"
    it stores does not load, so the next request, the admin dashboard
    included, is redirected to the login page. *)
Theorem admin_login_gives_no_access (e : env) (form : list (string * string))
    (r : request) (w : world) :
  reply (admin_login POST form w) = Redirect "admin_dashboard" →
  protected r = true →
  let w' := after (admin_login POST form w) in
  session_user_id w' = Some "admin"
  ∧ serve e r w' = unauthorized w'.
Proof.
  intros Hok Hr w'. subst w'. unfold admin_login in *.
  destruct (_ && _); [|done]. simpl. split; [done|].
  by apply serve_anonymous.
Qed.

(** X9. After a request to [/logout] the next request is anonymous,
    whoever sent it. *)
Theorem logout_ends_session (e : env) (w : world) :
  current_user (after (serve e ReqLogout w)) = Py.Ok AnonymousUser.
Proof.
  unfold serve, dispatch. destruct (current_user w) as [cu|ex] eqn:Hcu;
    [|by destruct (current_user_total w) as [? ?]; congruence].
  destruct (current_user_inv w cu Hcu) as [->|(u & -> & _)]; simpl; done.
Qed.

(** X10. In a reachable state the landing page sends a logged-in user to
    the farmer dashboard and shows the login page to anyone else; it never
    redirects to the admin dashboard and never changes the state. *)
Theorem home_never_admin (e : env) (w : world) :
  reachable w →
  after (serve e ReqHome w) = w
  ∧ ((∃ u, current_user w = Py.Ok (DbUser u))
     ∧ reply (serve e ReqHome w) = Redirect "farmer_dashboard"
     ∨ current_user w = Py.Ok AnonymousUser
       ∧ reply (serve e ReqHome w) = RenderTemplate "login.html" []).
Proof.
  intros (Hrows & _)%reachable_store_ok. unfold serve, dispatch.
  destruct (current_user_total w) as [cu Hcu]. rewrite Hcu.
  destruct (current_user_inv w cu Hcu) as [->|(u & -> & Hu)]; simpl.
  - split; [done|]. by right.
  - apply list_elem_of_lookup in Hu as [i Hi].
    destruct (Hrows i u Hi) as (_ & Hrole & _).
    unfold home. simpl. rewrite Hrole. simpl.
    split; [done|]. left. split; [by exists u | done].
Qed.

(** X11. In a reachable state the admin dashboard is rendered exactly for
    a logged-in row whose username is the admin name; that row is a
    farmer like every other. *)
Theorem admin_dashboard_needs_name_admin (e : env) (w : world) :
  reachable w →
  (status_code (reply (serve e ReqAdminDashboard w)) = 200
   ↔ ∃ u, current_user w = Py.Ok (DbUser u) ∧ username u = ADMIN_USERNAME)
  ∧ (∀ u, current_user w = Py.Ok (DbUser u) → role u = "farmer").
Proof.
  intros (Hrows & _)%reachable_store_ok. unfold serve, dispatch.
  destruct (current_user_total w) as [cu Hcu]. rewrite Hcu.
  destruct (current_user_inv w cu Hcu) as [->|(u & -> & Hu)]; simpl.
  - split; [|done]. split; [done|]. by intros (u & [=] & _).
  - apply list_elem_of_lookup in Hu as [i Hi].
    destruct (Hrows i u Hi) as (_ & Hrole & _).
    split; [|by intros u' [= <-]].
    unfold admin_dashboard, login_required, admin_dashboard_view. simpl.
    rewrite Hrole. simpl.
    destruct (String.eqb (username u) ADMIN_USERNAME) eqn:Hname; simpl.
    + apply String.eqb_eq in Hname. split; [|done]. intros _. by exists u.
    + apply String.eqb_neq in Hname. split; [done|].
      by intros (u' & [= <-] & ?).
Qed.

End Sessions.

(** ** Properties of the telemetry endpoints *)

Section TelemetryRuns.
Context {interp : Py.runtime} {hashing : PasswordHash} {floats : PyFloat}.




(** X13. The upload endpoint takes no notice of the login session: with
    any session id the reply and the stored tables are the same, and the
    session is left as it was. *)
Theorem upload_ignores_session (e : env) (body : option json) (w : world)
    (sid : option string) :
  reply (serve e (ReqIotUpload body) (set_session w sid))
  = reply (serve e (ReqIotUpload body) w)
  ∧ db (after (serve e (ReqIotUpload body) (set_session w sid)))
    = db (after (serve e (ReqIotUpload body) w))
  ∧ session_user_id (after (serve e (ReqIotUpload body) (set_session w sid)))
    = sid.
Proof.
  rewrite !serve_iot_upload. unfold api_iot_upload.
  destruct body as [data|]; simpl; [|done].
  destruct (negb (truthy data)); [done|].
  destruct (py_get data "api_key") as [key|ex]; simpl; [|by destruct ex].
  destruct (py_ne_str key IOT_API_KEY); [done|].
  unfold save_reading.
  destruct (sensor_field data "cap_soil_pct"); simpl; [|done].
  destruct (sensor_field data "res_soil_pct"); simpl; [|done].
  destruct (sensor_field data "rain_pct"); simpl; [|done].
  destruct (sensor_field data "water_level_pct"); simpl; [|done].
  destruct (sensor_field data "temperature_c"); simpl; [|done].
  destruct (sensor_field data "humidity_pct"); simpl; [|done].
  unfold add_reading. by destruct (commit_error e).
Qed.

End TelemetryRuns.

(** ** Properties of the imagery and weather adapters *)

Section AdapterRuns.
Context {interp : Py.runtime} {hashing : PasswordHash} {floats : PyFloat}.

Lemma mapM_Ok_length {A B} (f : A → Py.result B) (l : list A) (k : list B) :
  mapM f l = Py.Ok k → length k = length l.
Proof.
  revert k. induction l as [|x l IH]; intros k; simpl; [by intros [= <-]|].
  intros H. apply bind_Ok_inv in H as (y & _ & H).
  apply bind_Ok_inv in H as (k' & Hk' & H). injection H as <-.
  simpl. by rewrite (IH k' Hk').
Qed.

Lemma mapM_raises {A B} (f : A → Py.result B) (l : list A) (x : A) :
  x ∈ l → Py.raises (f x) → Py.raises (mapM f l).
Proof.
  intros Hx [ex Hex]. induction Hx as [x l|x y l Hx IH]; simpl.
  - rewrite Hex. by exists ex.
  - destruct (f y) as [b|ey]; simpl; [|by exists ey].
    destruct (IH Hex) as [ex' Hex']. rewrite Hex'. by exists ex'.
Qed.

(** X14. The two lists of a time series always go together: whenever
    [get_ndvi_timeseries] returns, the dates and the values are lists of
    the same length; when the provider's answer is a dict, whatever other
    keys it has, there is one entry per element of its "features" list,
    and none when it has no such key; both lists are empty when Earth
    Engine is not initialised. *)
Theorem timeseries_lengths (w : world) (e : env) (lat lon : float)
    (dates values : json) :
  get_ndvi_timeseries w e lat lon = Py.Ok (dates, values) →
  ∃ ds vs, dates = JArr ds ∧ values = JArr vs ∧ length ds = length vs
           ∧ (ee_ok w = false → ds = [] ∧ vs = [])
           ∧ (∀ info fs,
                ee_ok w = true →
                series_getInfo e
                  (SortBy (FilterDate (FilterBounds
                             (ImageCollection "COPERNICUS/S2_SR")
                             (GeomPoint lon lat)) 180 (now e))
                          "system:time_start")
                  (GeomPoint lon lat) = Py.Ok (JObj info) →
                (assoc "features" info = Some (JArr fs) →
                 length ds = length fs)
                ∧ (assoc "features" info = None → ds = [] ∧ vs = [])).
Proof.
  unfold get_ndvi_timeseries. destruct (ee_ok w) eqn:Hee; simpl.
  - intros H. apply bind_Ok_inv in H as (info & Hinfo & H).
    apply bind_Ok_inv in H as (features & Hfeatures & H).
    apply bind_Ok_inv in H as (fs & Hfs & H).
    apply bind_Ok_inv in H as (ds & Hds & H).
    apply bind_Ok_inv in H as (vs & Hvs & H). injection H as <- <-.
    exists ds, vs. apply mapM_Ok_length in Hds, Hvs.
    split; [done|]. split; [done|]. split; [congruence|]. split; [done|].
    intros info' fs' _ Hc. rewrite Hc in Hinfo. injection Hinfo as <-.
    simpl in Hfeatures. injection Hfeatures as <-. split.
    + intros Hsome. rewrite Hsome in Hfs. simpl in Hfs. by injection Hfs as <-.
    + intros Hnone. rewrite Hnone in Hfs. simpl in Hfs. injection Hfs as <-.
      by destruct ds, vs.
  - intros [= <- <-]. exists [], []. by repeat split.
Qed.

(** X15. The time-series call is not guarded: with Earth Engine
    initialised, a provider error in it leaves [get_ndvi_timeseries], and
    the point endpoint answers 500 for a logged-in user although the point
    value and the maps degrade. *)
Theorem timeseries_failure_is_500 (e : env) (fields : list (string * json))
    (u : User) (w : world) (lat lon : float) (msg : string) :
  current_user w = Py.Ok (DbUser u) →
  ee_ok w = true →
  py_float (default (JFloat default_lat) (assoc "lat" fields)) = Py.Ok lat →
  py_float (default (JFloat default_lon) (assoc "lon" fields)) = Py.Ok lon →
  (∀ c g, series_getInfo e c g = Py.Raise (Py.UpstreamError msg)) →
  get_ndvi_timeseries w e lat lon = Py.Raise (Py.UpstreamError msg)
  ∧ serve e (ReqPointNdvi (Some (JObj fields))) w
    = {| reply := ErrorPage 500; flashed := []; after := w |}.
Proof.
  intros Hcu Hee Hlat Hlon Hfail.
  assert (get_ndvi_timeseries w e lat lon = Py.Raise (Py.UpstreamError msg))
    as Hseries.
  { unfold get_ndvi_timeseries. rewrite Hee. simpl. by rewrite Hfail. }
  split; [done|]. unfold serve, dispatch. rewrite Hcu. simpl.
  unfold api_point_ndvi, login_required, api_point_ndvi_view. simpl.
  rewrite Hlat. simpl. rewrite Hlon. simpl.
  destruct (get_point_ndvi_total w e lat lon) as (v & html & ->). simpl.
  destruct (get_true_color_map_total w e lat lon) as (tc & ->). simpl.
  by rewrite Hseries.
Qed.

Lemma fetch_weather_total (e : env) (lat lon : float) :
  ∃ p, fetch_weather e lat lon = Py.Ok p.
Proof.
  unfold fetch_weather. simpl.
  destruct (weather_json e lat lon); [|by eexists].
  destruct (forecast_json e lat lon); by eexists.
Qed.

(** X16. [fetch_weather] never raises and is all or nothing: the pair of
    documents when both calls succeed, the pair of nulls as soon as either
    fails. *)
Theorem fetch_weather_all_or_nothing (e : env) (lat lon : float) :
  (∀ a b, weather_json e lat lon = Py.Ok a → forecast_json e lat lon = Py.Ok b →
          fetch_weather e lat lon = Py.Ok (a, b))
  ∧ (Py.raises (weather_json e lat lon) ∨ Py.raises (forecast_json e lat lon) →
     fetch_weather e lat lon = Py.Ok (JNull, JNull))
  ∧ ∃ p, fetch_weather e lat lon = Py.Ok p.
Proof.
  unfold fetch_weather. simpl. split; [|split].
  - by intros a b -> ->.
  - intros [[ex ->]|[ex ->]]; [done|]. by destruct (weather_json e lat lon).
  - apply fetch_weather_total.
Qed.

(** X17. With Earth Engine not initialised the point endpoint answers a
    logged-in user with status 200: a null value, the two "unavailable"
    fragments, empty series, and whatever [fetch_weather] gives; no
    imagery provider call is made. *)
Theorem point_ndvi_offline (e : env) (fields : list (string * json))
    (cu : principal) (w : world) (lat lon : float) :
  is_authenticated cu = Py.Ok true →
  ee_ok w = false →
  py_float (default (JFloat default_lat) (assoc "lat" fields)) = Py.Ok lat →
  py_float (default (JFloat default_lon) (assoc "lon" fields)) = Py.Ok lon →
  ∃ meteo, fetch_weather e lat lon = Py.Ok meteo
    ∧ api_point_ndvi e (Some (JObj fields)) cu w
      = Py.Ok {| reply :=
                   Jsonify (JObj [("ndvi_value", JNull);
                                  ("ndvi_map", JStr "<p>NDVI unavailable (EE/folium missing).</p>");
                                  ("true_color", JStr "<p>True color map unavailable (EE/folium not installed).</p>");
                                  ("ts_dates", JArr []);
                                  ("ts_values", JArr []);
                                  ("weather", meteo.1);
                                  ("forecast", meteo.2)]) 200;
                 flashed := []; after := w |}.
Proof.
  intros [u ->]%authenticated_is_row Hee Hlat Hlon.
  destruct (fetch_weather_total e lat lon) as (meteo & Hmeteo).
  exists meteo. split; [done|].
  unfold api_point_ndvi, login_required, api_point_ndvi_view. simpl.
  rewrite Hlat. simpl. rewrite Hlon. simpl.
  unfold get_point_ndvi, get_true_color_map, get_ndvi_timeseries.
  rewrite Hee. simpl. by rewrite Hmeteo.
Qed.

(** X18. With Earth Engine not initialised the polygon endpoint answers
    a logged-in user [{"stats": null}] with status 200 for every JSON
    object, whatever its [coords]: they are not looked at. *)
Theorem polygon_ndvi_offline (e : env) (fields : list (string * json))
    (cu : principal) (w : world) :
  is_authenticated cu = Py.Ok true →
  ee_ok w = false →
  api_polygon_ndvi e (Some (JObj fields)) cu w
  = Py.Ok {| reply := Jsonify (JObj [("stats", JNull)]) 200;
             flashed := []; after := w |}.
Proof.
  intros [u ->]%authenticated_is_row Hee.
  unfold api_polygon_ndvi, login_required, api_polygon_ndvi_view. simpl.
  unfold get_polygon_ndvi_stats. by rewrite Hee.
Qed.

(** X19. With Earth Engine initialised, a coordinate that does not unpack
    into exactly two values makes [get_polygon_ndvi_stats] raise, whatever
    the provider would answer. *)
Theorem polygon_bad_coords (w : world) (e : env) (ring : list json) (c : json) :
  ee_ok w = true → c ∈ ring → Py.raises (py_unpack2 c) →
  Py.raises (get_polygon_ndvi_stats w e (JArr ring)).
Proof.
  intros Hee Hc [ex Hex]. unfold get_polygon_ndvi_stats. rewrite Hee. simpl.
  destruct (mapM_raises (λ c, p ← py_unpack2 c; mret (p.2, p.1)) ring c Hc)
    as [ex' ->]; [|by eexists].
  rewrite Hex. by eexists.
Qed.

(** X20. With Earth Engine initialised and a ring of pairs, the answer of
    [get_polygon_ndvi_stats] has exactly the four keys NDVI_min, NDVI_max,
    NDVI_mean and NDVI_stdDev, each copied from the provider's dict and
    null when the provider left it out. *)
Theorem polygon_stats_keys (w : world) (e : env) (ring : list json)
    (stats : list (string * json)) :
  ee_ok w = true →
  (∀ c, c ∈ ring → ∃ lat lon, c = JArr [lat; lon]) →
  (∀ img g, reduce_stats e img g = Py.Ok (JObj stats)) →
  get_polygon_ndvi_stats w e (JArr ring)
  = Py.Ok (JObj [("NDVI_min", default JNull (assoc "NDVI_min" stats));
                 ("NDVI_max", default JNull (assoc "NDVI_max" stats));
                 ("NDVI_mean", default JNull (assoc "NDVI_mean" stats));
                 ("NDVI_stdDev", default JNull (assoc "NDVI_stdDev" stats))]).
Proof.
  intros Hee Hring Hstats. unfold get_polygon_ndvi_stats, get_latest_s2_image.
  rewrite Hee. simpl.
  assert (∃ ee_coords,
            mapM (λ c, p ← py_unpack2 c; mret (p.2, p.1)) ring
            = Py.Ok ee_coords) as [ee_coords ->].
  { induction ring as [|c ring IH]; [by eexists|].
    destruct (Hring c) as (lat & lon & ->); [left|].
    destruct IH as [rest Hrest]; [intros c Hc; apply Hring; by right|].
    simpl. rewrite Hrest. by eexists. }
  simpl. by rewrite Hstats.
Qed.

End AdapterRuns.

(** *** Instances of the properties *)

Lemma sample_reachable : reachable Samples.busy ∧ reachable Samples.idle.
Proof. split; eexists _, _; reflexivity. Qed.

Lemma reachable_users_witness :
  reachable Samples.busy
  ∧ NoDup (username <$> users (db Samples.busy))
  ∧ (username <$> users (db Samples.busy)) = ["carol"; "dave"].
Proof.
  split; [apply sample_reachable|].
  split; [apply (reachable_users Samples.busy), sample_reachable | reflexivity].
Defined.

Lemma reachable_readings_witness :
  reachable Samples.busy
  ∧ NoDup (reading_id <$> readings (db Samples.busy))
  ∧ (reading_id <$> readings (db Samples.busy)) = [1; 2].
Proof.
  split; [apply sample_reachable|].
  split; [apply (reachable_readings Samples.busy), sample_reachable | reflexivity].
Defined.

Lemma login_then_current_user_witness :
  reachable Samples.idle
  ∧ reply (login POST (Demo.creds "carol" "pw1") Samples.idle)
    = Redirect "farmer_dashboard"
  ∧ ∃ u, u ∈ users (db Samples.idle)
         ∧ username u = "carol"
         ∧ current_user (after (login POST (Demo.creds "carol" "pw1") Samples.idle))
           = Py.Ok (DbUser u).
Proof.
  split; [apply sample_reachable|]. split; [reflexivity|].
  apply (login_then_current_user (Demo.creds "carol" "pw1") Samples.idle);
    [apply sample_reachable | | reflexivity].
  apply Forall_forall. by repeat constructor.
Defined.

Lemma register_then_login_witness :
  reply (register Samples.online POST (Demo.creds "erin" "pw") Samples.idle)
  = Redirect "login"
  ∧ reply (login POST (Demo.creds "erin" "pw")
             (after (register Samples.online POST (Demo.creds "erin" "pw")
                              Samples.idle)))
    = Redirect "farmer_dashboard".
Proof.
  split; [reflexivity|].
  apply (register_then_login Samples.online (Demo.creds "erin" "pw") Samples.idle).
  reflexivity.
Defined.

Lemma anonymous_is_turned_away_witness :
  protected ReqLatestIot = true
  ∧ current_user Samples.idle = Py.Ok AnonymousUser
  ∧ serve Samples.online ReqLatestIot Samples.idle = unauthorized Samples.idle.
Proof.
  split; [reflexivity|]. split; [reflexivity|].
  apply anonymous_is_turned_away; reflexivity.
Defined.

Lemma admin_login_gives_no_access_witness :
  reply (admin_login POST (Demo.creds "admin" "admin123") Samples.busy)
  = Redirect "admin_dashboard"
  ∧ protected ReqAdminDashboard = true
  ∧ serve Samples.online ReqAdminDashboard
          (after (admin_login POST (Demo.creds "admin" "admin123") Samples.busy))
    = unauthorized
        (after (admin_login POST (Demo.creds "admin" "admin123") Samples.busy)).
Proof.
  split; [reflexivity|]. split; [reflexivity|].
  apply (admin_login_gives_no_access Samples.online
           (Demo.creds "admin" "admin123") ReqAdminDashboard Samples.busy);
    reflexivity.
Defined.

Lemma home_never_admin_witness :
  reachable Samples.busy
  ∧ reply (serve Samples.online ReqHome Samples.busy)
    ≠ Redirect "admin_dashboard".
Proof.
  split; [apply sample_reachable|].
  destruct (home_never_admin Samples.online Samples.busy)
    as [_ [[_ ->]|[_ ->]]]; [apply sample_reachable | done | done].
Defined.

Lemma admin_dashboard_needs_name_admin_witness :
  reachable Samples.busy
  ∧ status_code (reply (serve Samples.online ReqAdminDashboard Samples.busy))
    ≠ 200.
Proof.
  split; [apply sample_reachable|].
  intros Hserved.
  apply (admin_dashboard_needs_name_admin Samples.online Samples.busy) in Hserved
    as (u & [= <-] & Hname); [discriminate Hname | apply sample_reachable].
Defined.


Lemma timeseries_lengths_witness :
  get_ndvi_timeseries Samples.busy Samples.online default_lat default_lon
  = Py.Ok (JArr [JStr "2024-01-05"; JStr "2024-02-04"], JArr [JInt 0; JInt 1])
  ∧ ∃ ds vs, JArr [JStr "2024-01-05"; JStr "2024-02-04"] = JArr ds
             ∧ JArr [JInt 0; JInt 1] = JArr vs ∧ length ds = length vs
             ∧ length ds = 2%nat.
Proof.
  split; [reflexivity|].
  destruct (timeseries_lengths Samples.busy Samples.online default_lat default_lon
              (JArr [JStr "2024-01-05"; JStr "2024-02-04"])
              (JArr [JInt 0; JInt 1]) eq_refl)
    as (ds & vs & Hds & Hvs & Hlen & _ & Hfeatures).
  exists ds, vs. split; [done|]. split; [done|]. split; [done|].
  by apply (Hfeatures _ [Samples.feature "2024-01-05" 0;
                         Samples.feature "2024-02-04" 1]
                      eq_refl eq_refl).
Defined.

Lemma timeseries_failure_is_500_witness :
  current_user Demo.alice_online = Py.Ok (DbUser Demo.alice)
  ∧ ee_ok Demo.alice_online = true
  ∧ status_code (reply (serve (Demo.offline None) (ReqPointNdvi (Some (JObj [])))
                              Demo.alice_online)) = 500.
Proof.
  split; [reflexivity|]. split; [reflexivity|].
  destruct (timeseries_failure_is_500 (Demo.offline None) [] Demo.alice
              Demo.alice_online default_lat default_lon "network unreachable")
    as [_ ->]; reflexivity.
Defined.

Lemma point_ndvi_offline_witness :
  is_authenticated (DbUser Demo.alice) = Py.Ok true
  ∧ ee_ok Demo.two_farmers = false
  ∧ ∃ o, api_point_ndvi Samples.online (Some (JObj [("lat", JInt 12)]))
           (DbUser Demo.alice) Demo.two_farmers = Py.Ok o
         ∧ status_code (reply o) = 200.
Proof.
  split; [reflexivity|]. split; [reflexivity|].
  destruct (point_ndvi_offline Samples.online [("lat", JInt 12)]
              (DbUser Demo.alice) Demo.two_farmers
              (QArith_base.Qmake 12 1) default_lon)
    as (meteo & _ & ->); try reflexivity.
  by eexists.
Defined.

Lemma polygon_ndvi_offline_witness :
  is_authenticated (DbUser Demo.alice) = Py.Ok true
  ∧ ee_ok Demo.two_farmers = false
  ∧ api_polygon_ndvi Samples.online (Some (JObj [("coords", JStr "nonsense")]))
      (DbUser Demo.alice) Demo.two_farmers
    = Py.Ok {| reply := Jsonify (JObj [("stats", JNull)]) 200;
               flashed := []; after := Demo.two_farmers |}.
Proof.
  split; [reflexivity|]. split; [reflexivity|].
  apply polygon_ndvi_offline; reflexivity.
Defined.

Lemma polygon_bad_coords_witness :
  ee_ok Demo.alice_online = true
  ∧ Py.raises (py_unpack2 (JArr [JInt 1; JInt 2; JInt 3]))
  ∧ Py.raises (get_polygon_ndvi_stats Demo.alice_online Samples.online
                 (JArr [JArr [JInt 28; JInt 77];
                        JArr [JInt 1; JInt 2; JInt 3]])).
Proof.
  assert (Py.raises (py_unpack2 (JArr [JInt 1; JInt 2; JInt 3]))) as Hbad
    by (eexists; reflexivity).
  split; [reflexivity|]. split; [exact Hbad|].
  apply (polygon_bad_coords Demo.alice_online Samples.online _
           (JArr [JInt 1; JInt 2; JInt 3]));
    [reflexivity | by repeat constructor | exact Hbad].
Defined.

Lemma polygon_stats_keys_witness :
  ee_ok Demo.alice_online = true
  ∧ get_polygon_ndvi_stats Demo.alice_online Samples.online Demo.triangle
    = Py.Ok (JObj [("NDVI_min", JInt 0); ("NDVI_max", JNull);
                   ("NDVI_mean", JInt 1); ("NDVI_stdDev", JNull)]).
Proof.
  split; [reflexivity|].
  apply (polygon_stats_keys Demo.alice_online Samples.online
           [JArr [JInt 28; JInt 77]; JArr [JInt 29; JInt 77];
            JArr [JInt 29; JInt 78]]
           [("NDVI_min", JInt 0); ("NDVI_mean", JInt 1)]);
    [reflexivity | | reflexivity].
  intros c Hc.
  apply elem_of_cons in Hc as [->|Hc]; [by eexists _, _|].
  apply elem_of_cons in Hc as [->|Hc]; [by eexists _, _|].
  apply elem_of_cons in Hc as [->|Hc]; [by eexists _, _|].
  by apply not_elem_of_nil in Hc.
Defined.

(** C7: with the right secret and a healthy store, a field that is a list
    does not convert, so the answer is 500 and nothing is stored; and a
    field that converts to NaN is accepted with status 200 but kept as
    NULL, not as the converted value. *)
Lemma iot_upload_not_as_sent :
  assoc "api_key" Demo.list_upload = Some (JStr IOT_API_KEY)
  ∧ commit_error (Demo.offline None) = None
  ∧ status_code (reply (serve (Demo.offline None)
                              (ReqIotUpload (Some (JObj Demo.list_upload)))
                              Demo.two_farmers)) = 500
  ∧ readings (db (after (serve (Demo.offline None)
                               (ReqIotUpload (Some (JObj Demo.list_upload)))
                               Demo.two_farmers))) = []
  ∧ assoc "api_key" Nan.nan_upload = Some (JStr IOT_API_KEY)
  ∧ sensor_field (JObj Nan.nan_upload) "temperature_c" = Py.Ok Nan.nan
  ∧ status_code (reply (serve Nan.offline
                              (ReqIotUpload (Some (JObj Nan.nan_upload)))
                              Nan.fresh)) = 200
  ∧ (temperature_c <$> readings (db Nan.upload)) = [None]
  ∧ (cap_soil_pct <$> readings (db Nan.upload)) = [Some (Some 41)].
Proof. repeat split; reflexivity. Qed.
